(** * trading_bot: the exchange adapter and the TWAP slicer of [src/bot.py]

    A shallow embedding of [BasicBot] (the first, complete class of
    [src/bot.py], lines 15-89): the execution wrapper [_safe_execute], the
    three order operations and [place_twap].

    - Python [float] is IEEE binary64.  It is modelled by [spec_float] of
      the standard library with [prec = 53] and [emax = 1024]; the
      operators [/], [*], [-] and [+] are [SFdiv], [SFmul], [SFsub] and
      [SFadd], all rounding to nearest, ties to even.
    - Python [int] is unbounded: [Z].
    - A [dict] with string keys is a [gmap string pyval].
    - The exchange client and [time.sleep] are collaborators outside the
      repository; they are parameters of the model.
    - Calls to the logger only write to the log sink and never change a
      result; they are left out of the state. *)

From Stdlib Require Import ZArith QArith Lia List Bool.
From Stdlib Require Import Floats.SpecFloat.
From stdpp Require Import base option gmap strings list pretty.

Local Open Scope Z_scope.

(** ** Python floats *)

Module PyFloat.

Definition prec : Z := 53.
Definition emax : Z := 1024.

Definition float : Type := spec_float.

Definition fdiv : float -> float -> float := SFdiv prec emax.
Definition fmul : float -> float -> float := SFmul prec emax.
Definition fsub : float -> float -> float := SFsub prec emax.
Definition fadd : float -> float -> float := SFadd prec emax.

(** Python's [==] on floats. *)
Definition feqb : float -> float -> bool := SFeqb.

(** A float that is a bit pattern of binary64. *)
Definition is_float (x : float) : Prop := valid_binary prec emax x = true.

(** [n / d] rounded to the nearest integer, ties to the even one
    ([n >= 0], [d > 0]). *)
Definition round_half_even_div (n d : Z) : Z :=
  let q := n / d in
  let r := n mod d in
  match 2 * r ?= d with
  | Lt => q
  | Gt => q + 1
  | Eq => if Z.even q then q else q + 1
  end.

(** The binary64 number nearest to the rational [n / d], ties to even,
    with sign [s]: what the parser does with a decimal literal and what
    [strtod] does at the end of [round]. *)
Definition float_of_ratio (s : bool) (n d : positive) : float :=
  let '(mz, ez, lz) := SFdiv_core_binary prec emax (Zpos n) 0 (Zpos d) 0 in
  binary_round_aux prec emax s mz ez lz.

(** The literal [n e-8], for instance [dec8 33333333] is [0.33333333]. *)
Definition dec8 (n : positive) : float := float_of_ratio false n (10 ^ 8).

(** The nearest binary64 number to the positive integer [p]: the 53
    leading bits, rounded half to even. *)
Definition float_of_pos (s : bool) (p : positive) : float :=
  let d := Z.log2 (Zpos p) + 1 in
  if d <=? prec then
    S754_finite s (Z.to_pos (Zpos p * 2 ^ (prec - d))) (d - prec)
  else
    let m := round_half_even_div (Zpos p) (2 ^ (d - prec)) in
    if m =? 2 ^ prec then
      S754_finite s (Z.to_pos (2 ^ (prec - 1))) (d - prec + 1)
    else S754_finite s (Z.to_pos m) (d - prec).

(** The first integer that no longer converts: halfway between the
    largest float [2^1024 - 2^971] and [2^1024]. *)
Definition int_overflow_bound : Z := Eval vm_compute in 2 ^ 1024 - 2 ^ 970.

(** The implicit conversion of an [int] operand in [float / int] and
    [float * int].  [None] stands for
    [OverflowError: int too large to convert to float]. *)
Definition py_float_of_int (n : Z) : option float :=
  match n with
  | Z0 => Some (S754_zero false)
  | Zpos p =>
      if Zpos p <? int_overflow_bound then Some (float_of_pos false p)
      else None
  | Zneg p =>
      if Zpos p <? int_overflow_bound then Some (float_of_pos true p)
      else None
  end.

(** [round(x, 8)].  CPython prints [x] correctly rounded (half to even on
    the exact binary value) with 8 digits after the point and reads the
    digits back; infinities and NaN are returned as they are, and the
    sign survives a result of zero. *)
Definition py_round8 (x : float) : float :=
  match x with
  | S754_finite s m e =>
      let scaled :=
        if 0 <=? e then Zpos m * 2 ^ e * 10 ^ 8
        else round_half_even_div (Zpos m * 10 ^ 8) (2 ^ (- e)) in
      match scaled with
      | Zpos n => float_of_ratio s n (10 ^ 8)
      | _ => S754_zero s
      end
  | _ => x
  end.

(** [sum(qs)]: additions from the left, starting from zero. *)
Definition py_sum (qs : list float) : float :=
  fold_left fadd qs (S754_zero false).

(** The exact rational value of a finite float (0 for the others). *)
Definition exact (x : float) : Q :=
  match x with
  | S754_finite s m e =>
      let v := if 0 <=? e then inject_Z (Zpos m * 2 ^ e)
               else Qmake (Zpos m) (Z.to_pos (2 ^ (- e))) in
      if s then Qopp v else v
  | _ => 0%Q
  end.

Definition exact_sum (qs : list float) : Q :=
  fold_left (fun acc q => Qplus acc (exact q)) qs 0%Q.

Definition is_zero (x : float) : bool :=
  match x with S754_zero _ => true | _ => false end.

(** Neither an infinity nor NaN. *)
Definition is_finite (x : float) : bool :=
  match x with S754_zero _ | S754_finite _ _ _ => true | _ => false end.

Definition is_negative (x : float) : bool :=
  match x with S754_finite true _ _ => true | _ => false end.

End PyFloat.

Import PyFloat.

(** ** Python values, exceptions and the collaborators *)

(** The values that travel through the adapter: keyword arguments
    (strings and floats) and the client's response, which is passed through
    unchanged whatever it is. *)
#[warnings="-register-all"]
Inductive pyval : Type :=
  | PyNone
  | PyStr (s : string)
  | PyInt (n : Z)
  | PyFloat (x : float)
  | PyDict (d : gmap string pyval).

(** What the exchange client can raise, as [_safe_execute] tells it apart:
    the library's [BinanceAPIException], whose [message] attribute may be
    missing, and any other [Exception]; [str_e] is [str(e)].  Interrupts of
    the process (KeyboardInterrupt, SystemExit) are not [Exception]s and
    are not modelled. *)
Inductive client_exn : Type :=
  | BinanceAPIException (message : option string) (str_e : string)
  | OtherException (str_e : string).

Inductive client_outcome : Type :=
  | Returns (resp : pyval)
  | Raises (e : client_exn).

(** The message that an exception carries: the [message] attribute of an
    exchange exception that has one, the string of the exception
    otherwise. *)
Definition message_of (e : client_exn) : string :=
  match e with
  | BinanceAPIException (Some m) _ => m
  | BinanceAPIException None str_e => str_e
  | OtherException str_e => str_e
  end.

(** The exceptions that leave [place_twap]. *)
Inductive pyexn : Type :=
  | ValueError (msg : string)
  | OverflowError (msg : string).

Inductive outcome (A : Type) : Type :=
  | Returned (a : A)
  | Raised (e : pyexn).
Arguments Returned {A} a.
Arguments Raised {A} e.

(** What the outside world sees of a run, in order. *)
Inductive event : Type :=
  | Dispatch (kwargs : gmap string pyval)
  | Sleep (secs : Z).

(** [{"error": m}] *)
Definition error_descriptor (m : string) : pyval :=
  PyDict {[ "error" := PyStr m ]}.

(** The quantities of the orders sent to the exchange, in order. *)
Definition quantity_of (ev : event) : option float :=
  match ev with
  | Dispatch kwargs =>
      match kwargs !! "quantity" with
      | Some (PyFloat q) => Some q
      | _ => None
      end
  | Sleep _ => None
  end.

Definition submitted_quantities (tr : list event) : list float :=
  omap quantity_of tr.

Definition is_sleep (ev : event) : bool :=
  match ev with Sleep _ => true | Dispatch _ => false end.

(** ** The plan of a TWAP call, as a function of its two numbers *)

(** The quantity of slice [i] when [slices] and [slices - 1] convert to
    the floats [n] and [k]. *)
Definition slice_quantity (total_quantity : float) (slices : Z)
    (n k : float) (i : Z) : float :=
  let base := fdiv total_quantity n in
  if i <? slices - 1 then py_round8 base
  else py_round8 (fsub total_quantity (fmul base k)).

(** The quantities that a TWAP call plans to submit; it depends on
    nothing but the total and the number of slices. *)
Definition twap_quantities (total_quantity : float) (slices : Z) : list float :=
  if slices <=? 0 then []
  else
    match py_float_of_int slices, py_float_of_int (slices - 1) with
    | Some n, Some k =>
        map (slice_quantity total_quantity slices n k) (seqZ 0 slices)
    | _, _ => []
    end.

(** ** The bot *)

Section BasicBot.

(** The state of the exchange client (connection, account, a mock's
    script) and its one entry point, [client.futures_create_order]. *)
Context {World : Type}.
Variable futures_create_order :
  World -> gmap string pyval -> client_outcome * World.

(** [time.sleep]: [None] when it returns, [Some e] when it raises [e]
    without having waited. *)
Variable time_sleep : Z -> option pyexn.

Record state : Type := State { world : World; trace : list event }.

(** State and exception monad of the methods that can raise. *)
Definition M (A : Type) : Type := state -> outcome A * state.

Definition ret {A} (a : A) : M A := fun st => (Returned a, st).

Definition raise {A} (e : pyexn) : M A := fun st => (Raised e, st).

Definition bind {A B} (c : M A) (k : A -> M B) : M B :=
  fun st =>
    match c st with
    | (Returned a, st') => k a st'
    | (Raised e, st') => (Raised e, st')
    end.

Notation "'let*' x ':=' c 'in' k" := (bind c (fun x => k))
  (at level 10, x name, c at level 100, k at level 200).

(** A method that cannot raise, run inside [M]. *)
Definition lift {A} (f : state -> A * state) : M A :=
  fun st => let '(a, st') := f st in (Returned a, st').

Definition emit (ev : event) (st : state) : state :=
  {| world := world st; trace := trace st ++ [ev] |}.

(** [for i in l: acc = body(i, acc)]; an exception ends the loop. *)
Fixpoint for_each {A} (body : Z -> A -> M A) (l : list Z) (acc : A) : M A :=
  match l with
  | [] => ret acc
  | i :: l' => let* acc' := body i acc in for_each body l' acc'
  end.

(** [_safe_execute(fn, **kwargs)] (lines 43-58): the call is dispatched
    once; a response is returned as it is, an exception becomes an error
    descriptor. *)
Definition _safe_execute
    (fn : World -> gmap string pyval -> client_outcome * World)
    (kwargs : gmap string pyval) (st : state) : pyval * state :=
  let '(r, w') := fn (world st) kwargs in
  let st' := {| world := w'; trace := trace st ++ [Dispatch kwargs] |} in
  match r with
  | Returns resp => (resp, st')
  | Raises (BinanceAPIException message str_e) =>
      (PyDict {[ "error" := PyStr (default str_e message) ]}, st')
  | Raises (OtherException str_e) =>
      (PyDict {[ "error" := PyStr str_e ]}, st')
  end.

(** Lines 61-63. *)
Definition market_params (symbol side : string) (quantity : float)
  : gmap string pyval :=
  {[ "symbol" := PyStr symbol; "side" := PyStr side;
     "type" := PyStr "MARKET"; "quantity" := PyFloat quantity ]}.

Definition place_market_order (symbol side : string) (quantity : float)
  : state -> pyval * state :=
  _safe_execute futures_create_order (market_params symbol side quantity).

(** Lines 66-68. *)
Definition limit_params (symbol side : string) (quantity price : float)
  : gmap string pyval :=
  {[ "symbol" := PyStr symbol; "side" := PyStr side;
     "type" := PyStr "LIMIT"; "timeInForce" := PyStr "GTC";
     "price" := PyFloat price; "quantity" := PyFloat quantity ]}.

Definition place_limit_order (symbol side : string) (quantity price : float)
  : state -> pyval * state :=
  _safe_execute futures_create_order
    (limit_params symbol side quantity price).

(** Lines 71-73. *)
Definition stop_limit_params (symbol side : string)
    (quantity price stop_price : float) : gmap string pyval :=
  {[ "symbol" := PyStr symbol; "side" := PyStr side;
     "type" := PyStr "STOP"; "timeInForce" := PyStr "GTC";
     "price" := PyFloat price; "stopPrice" := PyFloat stop_price;
     "quantity" := PyFloat quantity ]}.

Definition place_stop_limit (symbol side : string)
    (quantity price stop_price : float) : state -> pyval * state :=
  _safe_execute futures_create_order
    (stop_limit_params symbol side quantity price stop_price).

(** An [int] operand of a float operator. *)
Definition int_operand (n : Z) : M float :=
  match py_float_of_int n with
  | Some f => ret f
  | None => raise (OverflowError "int too large to convert to float")
  end.

(** [time.sleep(interval_s)] *)
Definition sleep (secs : Z) : M unit :=
  match time_sleep secs with
  | None => fun st => (Returned tt, emit (Sleep secs) st)
  | Some e => raise e
  end.

(** The body of the loop of [place_twap] (lines 82-88). *)
Definition twap_slice (symbol side : string) (total_quantity : float)
    (slices interval_s : Z) (base : float)
    (i : Z) (results : list pyval) : M (list pyval) :=
  let* qty :=
    (if i <? slices - 1 then ret (py_round8 base)
     else
       let* k := int_operand (slices - 1) in
       ret (py_round8 (fsub total_quantity (fmul base k)))) in
  let* res := lift (place_market_order symbol side qty) in
  let results := results ++ [res] in
  if i <? slices - 1 then
    let* u := sleep interval_s in ret results
  else ret results.

(** [place_twap] (lines 76-89). *)
Definition place_twap (symbol side : string) (total_quantity : float)
    (slices interval_s : Z) : M (list pyval) :=
  if slices <=? 0 then raise (ValueError "slices must be >= 1")
  else
    let* n := int_operand slices in
    let base := fdiv total_quantity n in
    for_each (twap_slice symbol side total_quantity slices interval_s base)
      (seqZ 0 slices) [].

(** The adapter run over a list of slices: the calls that [place_twap]
    makes when nothing raises. *)
Fixpoint run_slices (symbol side : string) (qty : Z -> float)
    (slices interval_s : Z) (l : list Z) (st : state)
  : list pyval * state :=
  match l with
  | [] => ([], st)
  | i :: l' =>
      let '(res, st1) := place_market_order symbol side (qty i) st in
      let st2 := if i <? slices - 1 then emit (Sleep interval_s) st1
                 else st1 in
      let '(rs, st3) := run_slices symbol side qty slices interval_s l' st2 in
      (res :: rs, st3)
  end.

End BasicBot.

Arguments State {World} world trace.
Arguments world {World} s.
Arguments trace {World} s.


(** What a TWAP call with the quantities [qs] shows to the outside: a
    market order per quantity and a wait between two orders. *)
Fixpoint twap_events (symbol side : string) (interval_s : Z)
    (qs : list float) : list event :=
  match qs with
  | [] => []
  | q :: qs' =>
      Dispatch {[ "symbol" := PyStr symbol; "side" := PyStr side;
                  "type" := PyStr "MARKET"; "quantity" := PyFloat q ]}
      :: match qs' with
         | [] => []
         | _ :: _ => Sleep interval_s :: twap_events symbol side interval_s qs'
         end
  end.

(** The sign of a float: true for the negative numbers, [-0.0] and minus
    infinity; NaN counts as unsigned. *)
Definition sign_bit (x : float) : bool :=
  match x with
  | S754_zero s | S754_infinity s | S754_finite s _ _ => s
  | S754_nan => false
  end.

(** ** Concrete collaborators *)

(** CPython's [time.sleep] on an [int].  The length is first converted to
    a count of nanoseconds on 64 bits, which fails from 9223372037 seconds
    on, in both directions; a negative length is then refused. *)
Definition cpython_sleep (secs : Z) : option pyexn :=
  if (secs <? -9223372036) || (9223372036 <? secs) then
    Some (OverflowError "timestamp too large to convert to C _PyTime_t")
  else if secs <? 0 then
    Some (ValueError "sleep length must be non-negative")
  else None.

(** A mocked client that accepts every order; its state counts the calls. *)
Definition accepting_client (calls : nat) (kwargs : gmap string pyval)
  : client_outcome * nat :=
  (Returns (PyDict {[ "orderId" := PyInt (Z.of_nat calls);
                      "status" := PyStr "NEW" ]}), S calls).

(** A mocked client whose [k]-th call (from 0) is rejected by the exchange. *)
Definition rejecting_client (k : nat) (calls : nat)
    (kwargs : gmap string pyval) : client_outcome * nat :=
  if Nat.eqb calls k then
    (Raises (BinanceAPIException (Some "Insufficient margin")
               "APIError(code=-2019): Insufficient margin"), S calls)
  else
    (Returns (PyDict {[ "orderId" := PyInt (Z.of_nat calls);
                        "status" := PyStr "NEW" ]}), S calls).

(** A fresh run: no event yet. *)
Definition fresh {World : Type} (w : World) : state := State w [].

(** [1.0] and [3.0 / 3]-style literals used in the examples. *)
Definition lit_1_0 : float := float_of_ratio false 1 1.
Definition lit_minus_1_0 : float := float_of_ratio true 1 1.

(** [0.0009765625], that is [2 ** -10]. *)
Definition lit_2_pow_m10 : float := float_of_ratio false 1 1024.

(** The success payload of the [n]-th call of the mocked clients. *)
Definition accepted (n : Z) : pyval :=
  PyDict {[ "orderId" := PyInt n; "status" := PyStr "NEW" ]}.

(** ** The command line ([src/cli.py]) *)

(** [--type], one of the four [choices] of the parser (line 24). *)
Inductive order_type : Type := Market | Limit | Stop_limit | Twap.

(** The parsed arguments that [cli_mode] reads after the credentials
    (lines 22-29): an option that was not given is [None]. *)
Record cli_args : Type := Cli_args {
  arg_symbol : option string;
  arg_side : option string;
  arg_type : order_type;
  arg_quantity : option float;
  arg_price : option float;
  arg_stop_price : option float;
  arg_slices : Z;
  arg_interval : Z
}.

(** What the program writes: the argument of a [print] (a string, an order
    result, the list of results of a TWAP) and the prompt of an [input]. *)
Inductive output : Type :=
  | Print (s : string)
  | Print_value (v : pyval)
  | Print_values (vs : list pyval)
  | Prompt (s : string).

(** How [cli_mode] ends when it does not return: [sys.exit], an exception
    that nothing catches, or the end of the input. *)
Inductive cli_stop : Type :=
  | SystemExit (status : Z)
  | Uncaught (e : pyexn)
  | EOFError.

(** [not s] for an optional string: [None] and the empty string are false. *)
Definition truthy_str (o : option string) : bool :=
  match o with
  | Some s => negb (s =? "")%string
  | None => false
  end.

(** [a or d] for an optional string. *)
Definition str_or (o : option string) (d : string) : string :=
  match o with
  | Some s => if (s =? "")%string then d else s
  | None => d
  end.

(** The value of an optional float that is true for Python: [None] is
    false, and so are [0.0] and [-0.0]; NaN is true. *)
Definition truthy_float (o : option float) : option float :=
  match o with
  | Some x => if is_zero x then None else Some x
  | None => None
  end.

(** [side in {"BUY", "SELL"}] *)
Definition is_buy_or_sell (side : string) : bool :=
  (side =? "BUY")%string || (side =? "SELL")%string.

Definition newline : string := String (Ascii.ascii_of_nat 10) EmptyString.

(** The first line of [interactive_flow] (line 51). *)
Definition banner : string :=
  newline +:+ "=== Binance Futures Trading Bot (Testnet) ===" +:+ newline.

(** Line 57. *)
Definition menu : string :=
  "Order Types:" +:+ newline +:+ "1. Market" +:+ newline +:+ "2. Limit"
  +:+ newline +:+ "3. Stop-Limit" +:+ newline +:+ "4. TWAP".

(** Line 116: ["Starting TWAP: slices=%s interval=%ss" % (slices, interval)]. *)
Definition twap_banner (slices interval : Z) : string :=
  "Starting TWAP: slices=" +:+ pretty slices +:+ " interval="
  +:+ pretty interval +:+ "s".

Section Cli.

Context {World : Type}.
Variable futures_create_order :
  World -> gmap string pyval -> client_outcome * World.
Variable time_sleep : Z -> option pyexn.

(** [str.strip] and [str.upper]. *)
Variable str_strip str_upper : string -> string.

(** [float(s)] and [int(s)] on a string: the number, or the [ValueError]
    they raise. *)
Variable float_of_str : string -> float + pyexn.
Variable int_of_str : string -> Z + pyexn.

(** The bot, the lines still to be read and what has been written. *)
Record cli_state : Type := Cli_state {
  bot_state : @state World;
  stdin : list string;
  stdout : list output
}.

Definition C (A : Type) : Type := cli_state -> (A + cli_stop) * cli_state.

Definition cret {A} (a : A) : C A := fun cs => (inl a, cs).

Definition cstop {A} (r : cli_stop) : C A := fun cs => (inr r, cs).

Definition cbind {A B} (c : C A) (k : A -> C B) : C B :=
  fun cs =>
    match c cs with
    | (inl a, cs') => k a cs'
    | (inr r, cs') => (inr r, cs')
    end.

Notation "'let*' x ':=' c 'in' k" := (cbind c (fun x => k))
  (at level 10, x name, c at level 100, k at level 200).

Notation "c ';;' k" := (cbind c (fun _ => k))
  (at level 100, k at level 200, right associativity).

(** [print(o)] *)
Definition write (o : output) : C unit :=
  fun cs =>
    (inl tt, {| bot_state := bot_state cs; stdin := stdin cs;
                stdout := stdout cs ++ [o] |}).

(** [input(prompt)]: the prompt is written, then a line is read. *)
Definition input (prompt : string) : C string :=
  fun cs =>
    match stdin cs with
    | [] =>
        (inr EOFError,
         {| bot_state := bot_state cs; stdin := [];
            stdout := stdout cs ++ [Prompt prompt] |})
    | line :: rest =>
        (inl line,
         {| bot_state := bot_state cs; stdin := rest;
            stdout := stdout cs ++ [Prompt prompt] |})
    end.

(** [sys.exit(status)] *)
Definition sys_exit {A} (status : Z) : C A := cstop (SystemExit status).

Definition to_float (s : string) : C float :=
  match float_of_str s with
  | inl x => cret x
  | inr e => cstop (Uncaught e)
  end.

Definition to_int (s : string) : C Z :=
  match int_of_str s with
  | inl n => cret n
  | inr e => cstop (Uncaught e)
  end.

(** A call of one of the three order operations. *)
Definition order (op : @state World -> pyval * @state World) : C pyval :=
  fun cs =>
    let '(res, st') := op (bot_state cs) in
    (inl res, {| bot_state := st'; stdin := stdin cs; stdout := stdout cs |}).

(** A call of [bot.place_twap]; its exception is not caught. *)
Definition twap (call : @state World -> outcome (list pyval) * @state World)
  : C (list pyval) :=
  fun cs =>
    let '(r, st') := call (bot_state cs) in
    let cs' := {| bot_state := st'; stdin := stdin cs;
                  stdout := stdout cs |} in
    match r with
    | Returned rs => (inl rs, cs')
    | Raised e => (inr (Uncaught e), cs')
    end.

(** [interactive_flow(bot)] (lines 50-75). *)
Definition interactive_flow : C unit :=
  write (Print banner) ;;
  let* s := input "Symbol (e.g., BTCUSDT): " in
  let symbol := str_upper (str_strip s) in
  let* s := input "Side (BUY/SELL): " in
  let side := str_upper (str_strip s) in
  if negb (is_buy_or_sell side) then
    write (Print "Invalid side; must be BUY or SELL") ;; sys_exit 1
  else
    write (Print menu) ;;
    let* s := input "Select (1/2/3/4): " in
    let choice := str_strip s in
    let* s := input "Quantity: " in
    let* qty := to_float s in
    if (choice =? "1")%string then
      let* res :=
        order (place_market_order futures_create_order symbol side qty) in
      write (Print_value res)
    else if (choice =? "2")%string then
      let* s := input "Limit price: " in
      let* price := to_float s in
      let* res :=
        order (place_limit_order futures_create_order symbol side qty
                 price) in
      write (Print_value res)
    else if (choice =? "3")%string then
      let* s := input "Limit price: " in
      let* price := to_float s in
      let* s := input "Stop price: " in
      let* stop_price := to_float s in
      let* res :=
        order (place_stop_limit futures_create_order symbol side qty price
                 stop_price) in
      write (Print_value res)
    else if (choice =? "4")%string then
      let* s := input "TWAP slices (e.g., 5): " in
      let* slices := to_int s in
      let* s := input "Interval seconds between slices (e.g., 1): " in
      let* interval := to_int s in
      let* rs :=
        twap (place_twap futures_create_order time_sleep symbol side qty
                slices interval) in
      write (Print_values rs)
    else write (Print "Invalid choice").

(** [cli_mode(args)] from line 82 on: what the function does with the bot
    once lines 79-80 (the credentials, which may prompt for them, and the
    construction of the bot) have completed.  The state it starts from is
    the one lines 79-80 have left, so what is said of the input and of the
    output below counts from that point. *)
Definition cli_mode (args : cli_args) : C unit :=
  if negb (truthy_str (arg_symbol args)) then interactive_flow
  else
    let symbol := str_upper (default "" (arg_symbol args)) in
    let side := str_upper (str_or (arg_side args) "BUY") in
    if negb (is_buy_or_sell side) then
      write (Print "Invalid side; choose BUY or SELL") ;; sys_exit 1
    else
      match arg_type args with
      | Market =>
          match truthy_float (arg_quantity args) with
          | Some quantity =>
              let* res :=
                order (place_market_order futures_create_order symbol side
                         quantity) in
              write (Print_value res)
          | None =>
              write (Print "--quantity is required for market order") ;;
              sys_exit 1
          end
      | Limit =>
          match truthy_float (arg_quantity args),
                truthy_float (arg_price args) with
          | Some quantity, Some price =>
              let* res :=
                order (place_limit_order futures_create_order symbol side
                         quantity price) in
              write (Print_value res)
          | _, _ =>
              write (Print
                       "--quantity and --price are required for limit order") ;;
              sys_exit 1
          end
      | Stop_limit =>
          match truthy_float (arg_quantity args),
                truthy_float (arg_price args),
                truthy_float (arg_stop_price args) with
          | Some quantity, Some price, Some stop_price =>
              let* res :=
                order (place_stop_limit futures_create_order symbol side
                         quantity price stop_price) in
              write (Print_value res)
          | _, _, _ =>
              write (Print
                       "--quantity, --price and --stop-price are required for stop-limit") ;;
              sys_exit 1
          end
      | Twap =>
          match truthy_float (arg_quantity args) with
          | Some quantity =>
              write (Print (twap_banner (arg_slices args)
                              (arg_interval args))) ;;
              let* rs :=
                twap (place_twap futures_create_order time_sleep symbol side
                        quantity (arg_slices args) (arg_interval args)) in
              write (Print_values rs)
          | None =>
              write (Print "--quantity is required for TWAP") ;;
              sys_exit 1
          end
      end.

End Cli.

Arguments Cli_state {World} bot_state stdin stdout.
Arguments bot_state {World} c.
Arguments stdin {World} c.
Arguments stdout {World} c.

(** *** Instances of the string functions for the examples *)

(** [str.upper] on ASCII letters. *)
Fixpoint ascii_upper (s : string) : string :=
  match s with
  | String c s' =>
      let n := Ascii.nat_of_ascii c in
      String (if (97 <=? n)%nat && (n <=? 122)%nat
              then Ascii.ascii_of_nat (n - 32) else c)
        (ascii_upper s')
  | EmptyString => EmptyString
  end.

(** The blanks of [str.strip] among the ASCII characters: the space, the
    characters 9 to 13 and the separators 28 to 31. *)
Definition is_blank (c : Ascii.ascii) : bool :=
  let n := Ascii.nat_of_ascii c in
  (n =? 32)%nat || ((9 <=? n)%nat && (n <=? 13)%nat)
  || ((28 <=? n)%nat && (n <=? 31)%nat).

Fixpoint strip_left (s : string) : string :=
  match s with
  | String c s' => if is_blank c then strip_left s' else s
  | EmptyString => EmptyString
  end.

(** [str.strip] on ASCII strings. *)
Definition ascii_strip (s : string) : string :=
  String.rev (strip_left (String.rev (strip_left s))).

(** A table of the numbers typed in the examples, for [float] and [int]. *)
Definition example_float (s : string) : float + pyexn :=
  if (s =? "0")%string then inl (S754_zero false)
  else if (s =? "1")%string then inl lit_1_0
  else if (s =? "0.5")%string then inl (float_of_ratio false 1 2)
  else if (s =? "nan")%string then inl S754_nan
  else inr (ValueError "could not convert string to float").

Definition example_int (s : string) : Z + pyexn :=
  if (s =? "0")%string then inl 0
  else if (s =? "3")%string then inl 3
  else inr (ValueError "invalid literal for int() with base 10").

(** ** Facts about the float model *)

(** *** The conversions agree with the reference rounding of [SpecFloat] *)

Example float_of_int_1 :
  py_float_of_int 1 = Some (S754_finite false 4503599627370496 (-52))
  /\ lit_1_0 = S754_finite false 4503599627370496 (-52).
Proof. split; vm_compute; reflexivity. Qed.

Example float_of_int_reference :
  Forall (fun n => py_float_of_int n = Some (binary_normalize prec emax n 0 false))
    [1; 2; 3; 5; 7; 1000; -3; 2 ^ 53 - 1; 2 ^ 53; 2 ^ 53 + 1; 2 ^ 53 + 2;
     2 ^ 53 + 3; 2 ^ 54 + 2; 2 ^ 54 + 6; 2 ^ 200 + 2 ^ 147 + 1;
     2 ^ 1024 - 2 ^ 971; 2 ^ 1024 - 2 ^ 970 - 1].
Proof. repeat (constructor; [vm_compute; reflexivity|]). constructor. Qed.

Example float_of_int_overflows :
  py_float_of_int (2 ^ 1024 - 2 ^ 970) = None
  /\ binary_normalize prec emax (2 ^ 1024 - 2 ^ 970) 0 false
     = S754_infinity false.
Proof. split; vm_compute; reflexivity. Qed.

(** *** [round(x, 8)] on values checked against CPython *)

Example round8_third :
  py_round8 (fdiv lit_1_0 (S754_finite false 6755399441055744 (-51)))
  = dec8 33333333
  /\ dec8 33333333 = S754_finite false 6004799443112666 (-54).
Proof. split; vm_compute; reflexivity. Qed.

Example round8_2_pow_m10 :
  py_round8 lit_2_pow_m10 = dec8 97656.
Proof. vm_compute; reflexivity. Qed.

Example round8_2_pow_m27 :
  py_round8 (float_of_ratio false 1 (2 ^ 27)) = dec8 1.
Proof. vm_compute; reflexivity. Qed.

Example round8_small_negative :
  py_round8 (float_of_ratio true 1 (10 ^ 9)) = S754_zero true.
Proof. vm_compute; reflexivity. Qed.

Example round8_tie_to_even :
  py_round8 (float_of_ratio false 1 (2 ^ 9)) = dec8 195312
  /\ py_round8 (float_of_ratio false 3 (2 ^ 9)) = dec8 585938.
Proof. split; vm_compute; reflexivity. Qed.

(** *** Division by [1.0] is exact *)

Lemma div_eucl_pair (a b : Z) : Z.div_eucl a b = (a / b, a mod b).
Proof. unfold Z.div, Z.modulo. destruct (Z.div_eucl a b); reflexivity. Qed.

Lemma fexp_binary64 (k : Z) : fexp prec emax k = Z.max (k - 53) (-1074).
Proof. reflexivity. Qed.

Ltac no_shift d e :=
  change (Zdigits2 (Zpos _)) with d;
  rewrite fexp_binary64;
  replace (Z.max (d + e - 53) (-1074) - e) with 0 by lia;
  cbn [shr shr_record_of_loc shr_m loc_of_shr_record round_nearest_even].

Lemma fdiv_one (s : bool) (m : positive) (e : Z) :
  bounded prec emax m e = true ->
  fdiv (S754_finite s m e) (S754_finite false 4503599627370496 (-52))
  = S754_finite s m e.
Proof.
  unfold bounded, canonical_mantissa. intros H.
  apply andb_true_iff in H as [Hc He].
  apply Z.eqb_eq in Hc. apply Z.leb_le in He.
  change (Z.sub emax prec) with 971 in He.
  rewrite fexp_binary64 in Hc.
  unfold fdiv, SFdiv, SFdiv_core_binary.
  change (Zdigits2 (Zpos 4503599627370496)) with 53.
  change (Zdigits2 (Zpos m)) with (Zpos (digits2_pos m)).
  rewrite fexp_binary64.
  set (d := Zpos (digits2_pos m)) in *.
  assert (Hd : 0 < d) by (unfold d; lia).
  set (T := Z.min _ _).
  assert (HT : T = e \/ T = e - 1) by (unfold T; lia).
  destruct HT as [HT | HT]; rewrite HT.
  - (* the quotient already has the exponent of [x] *)
    replace (e - -52 - e) with 52 by lia.
    rewrite div_eucl_pair, Z.shiftl_mul_pow2 by lia.
    rewrite Z.div_mul, Z.mod_mul by lia.
    change (new_location 4503599627370496 0) with loc_Exact.
    unfold binary_round_aux, shr_fexp.
    no_shift d e. no_shift d e.
    change (Z.sub emax prec) with 971.
    destruct (Z.leb_spec e 971); [|lia].
    destruct s; reflexivity.
  - (* one more bit in the quotient, shifted out again *)
    replace (e - -52 - (e - 1)) with 53 by lia.
    rewrite div_eucl_pair, Z.shiftl_mul_pow2 by lia.
    replace (Z.pos m * 2 ^ 53) with (Z.pos m~0 * 4503599627370496) by lia.
    rewrite Z.div_mul, Z.mod_mul by lia.
    change (new_location 4503599627370496 0) with loc_Exact.
    unfold binary_round_aux, shr_fexp.
    replace (Zdigits2 (Zpos m~0)) with (d + 1)
      by (unfold d; cbn [Zdigits2 digits2_pos]; lia).
    rewrite fexp_binary64.
    replace (Z.max (d + 1 + (e - 1) - 53) (-1074) - (e - 1)) with 1 by lia.
    cbn [shr shr_record_of_loc shr_m loc_of_shr_record round_nearest_even
         SpecFloat.iter_pos shr_1 orb].
    replace (e - 1 + 1) with e by lia.
    no_shift d e.
    change (Z.sub emax prec) with 971.
    destruct (Z.leb_spec e 971); [|lia].
    destruct s; reflexivity.
Qed.

(** *** Which integers convert *)

Lemma py_float_of_int_below (n : Z) :
  0 <= n < int_overflow_bound -> is_Some (py_float_of_int n).
Proof.
  intros [H0 Hn]. destruct n as [|p|p]; [eexists; reflexivity| |lia].
  unfold py_float_of_int.
  destruct (Z.ltb_spec (Zpos p) int_overflow_bound); [eexists; reflexivity|lia].
Qed.

Lemma py_float_of_int_above (n : Z) :
  int_overflow_bound <= n -> py_float_of_int n = None.
Proof.
  intros Hn.
  assert (0 < int_overflow_bound) by reflexivity.
  destruct n as [|p|p]; [lia| |lia].
  unfold py_float_of_int.
  destruct (Z.ltb_spec (Zpos p) int_overflow_bound); [lia|reflexivity].
Qed.

Lemma py_float_of_int_Some_below (n : Z) (f : float) :
  0 <= n -> py_float_of_int n = Some f -> n < int_overflow_bound.
Proof.
  intros H0 Hf. destruct (Z.lt_ge_cases n int_overflow_bound) as [|Hge]; [done|].
  rewrite (py_float_of_int_above n Hge) in Hf. discriminate.
Qed.

(** The conversion of [slices - 1] in the last slice cannot fail once
    [slices] itself has been converted. *)
Lemma py_float_of_int_pred (n : Z) (f : float) :
  1 <= n -> py_float_of_int n = Some f -> is_Some (py_float_of_int (n - 1)).
Proof.
  intros H1 Hf. apply py_float_of_int_below.
  assert (n < int_overflow_bound)
    by (apply (py_float_of_int_Some_below n f); [lia|done]).
  lia.
Qed.

Lemma float_of_pos_finite (s : bool) (p : positive) :
  exists m e, float_of_pos s p = S754_finite s m e.
Proof.
  unfold float_of_pos.
  destruct (_ <=? _); [do 2 eexists; reflexivity|].
  destruct (_ =? _); do 2 eexists; reflexivity.
Qed.

(** A positive integer converts to a finite positive float. *)
Lemma py_float_of_int_positive (n : Z) (f : float) :
  1 <= n -> py_float_of_int n = Some f ->
  exists m e, f = S754_finite false m e.
Proof.
  intros H1. destruct n as [|p|p]; [lia| |lia].
  unfold py_float_of_int.
  destruct (Z.ltb_spec (Zpos p) int_overflow_bound); [|discriminate].
  intros Hf.
  assert (f = float_of_pos false p) as -> by congruence.
  apply float_of_pos_finite.
Qed.

Lemma py_float_of_int_nonneg (n : Z) (f : float) :
  0 <= n -> py_float_of_int n = Some f ->
  f = S754_zero false \/ exists m e, f = S754_finite false m e.
Proof.
  intros H0 Hf. destruct (Z.eq_dec n 0) as [->|Hn].
  - left. cbn in Hf. congruence.
  - right. apply (py_float_of_int_positive n); [lia|done].
Qed.

(** ** Facts about the adapter and the slicer *)

Section BasicBotFacts.

Context {World : Type}.
Variable futures_create_order :
  World -> gmap string pyval -> client_outcome * World.
Variable time_sleep : Z -> option pyexn.

Implicit Types (st : @state World) (symbol side : string) (l : list Z).

(** Every call of the wrapper dispatches exactly its keyword arguments. *)
Lemma safe_execute_trace fn kwargs st :
  trace (snd (_safe_execute fn kwargs st)) = trace st ++ [Dispatch kwargs].
Proof.
  unfold _safe_execute.
  destruct (fn (world st) kwargs) as [[resp|[message str_e|str_e]] w'];
    reflexivity.
Qed.

Lemma quantity_of_market symbol side q :
  quantity_of (Dispatch (market_params symbol side q)) = Some q.
Proof. reflexivity. Qed.

Lemma submitted_quantities_app (tr1 tr2 : list event) :
  submitted_quantities (tr1 ++ tr2)
  = submitted_quantities tr1 ++ submitted_quantities tr2.
Proof. apply omap_app. Qed.

Lemma place_market_order_trace symbol side q st :
  trace (snd (place_market_order futures_create_order symbol side q st))
  = trace st ++ [Dispatch (market_params symbol side q)].
Proof. apply safe_execute_trace. Qed.

(** One turn of the loop when nothing raises. *)
Lemma twap_slice_run symbol side total slices interval_s n k i results st :
  py_float_of_int (slices - 1) = Some k ->
  ((i <? slices - 1) = true -> time_sleep interval_s = None) ->
  twap_slice futures_create_order time_sleep symbol side total slices
    interval_s (fdiv total n) i results st
  = (let '(res, st1) :=
       place_market_order futures_create_order symbol side
         (slice_quantity total slices n k i) st in
     (Returned (results ++ [res]),
      if i <? slices - 1 then emit (Sleep interval_s) st1 else st1)).
Proof.
  intros Hk Hsleep.
  unfold twap_slice, slice_quantity, bind, lift, ret, int_operand, sleep.
  destruct (i <? slices - 1) eqn:Hi.
  - rewrite (Hsleep eq_refl).
    destruct (place_market_order _ _ _ _ _) as [res st1]. reflexivity.
  - rewrite Hk. unfold ret.
    destruct (place_market_order _ _ _ _ _) as [res st1]. reflexivity.
Qed.

(** The whole loop when nothing raises. *)
Lemma for_each_run symbol side total slices interval_s n k l :
  py_float_of_int (slices - 1) = Some k ->
  (forall i, i ∈ l -> (i <? slices - 1) = true ->
             time_sleep interval_s = None) ->
  forall results st,
    for_each
      (twap_slice futures_create_order time_sleep symbol side total slices
         interval_s (fdiv total n)) l results st
    = (let '(rs, st') :=
         run_slices futures_create_order symbol side
           (slice_quantity total slices n k) slices interval_s l st in
       (Returned (results ++ rs), st')).
Proof.
  intros Hk. induction l as [|i l IH]; intros Hsleep results st.
  - cbn. unfold ret. rewrite app_nil_r. reflexivity.
  - cbn [for_each run_slices]. unfold bind at 1.
    rewrite (twap_slice_run _ _ _ _ _ n k) by
      (try done; apply Hsleep; left).
    destruct (place_market_order _ _ _ _ _) as [res st1].
    rewrite IH by (intros j Hj; apply Hsleep; right; exact Hj).
    destruct (run_slices _ _ _ _ _ _ _ _) as [rs st3].
    rewrite <- app_assoc. reflexivity.
Qed.

Lemma run_slices_length symbol side qty slices interval_s l st :
  length (fst (run_slices futures_create_order symbol side qty slices
                 interval_s l st)) = length l.
Proof.
  revert st. induction l as [|i l IH]; intros st; [reflexivity|].
  cbn [run_slices].
  destruct (place_market_order _ _ _ _ _) as [res st1].
  specialize (IH (if i <? slices - 1 then emit (Sleep interval_s) st1
                  else st1)).
  destruct (run_slices _ _ _ _ _ _ _ _) as [rs st3].
  cbn in *. by rewrite IH.
Qed.

Lemma run_slices_app symbol side qty slices interval_s l1 l2 st :
  run_slices futures_create_order symbol side qty slices interval_s
    (l1 ++ l2) st
  = (let '(rs1, st1) :=
       run_slices futures_create_order symbol side qty slices interval_s
         l1 st in
     let '(rs2, st2) :=
       run_slices futures_create_order symbol side qty slices interval_s
         l2 st1 in
     (rs1 ++ rs2, st2)).
Proof.
  revert st. induction l1 as [|i l1 IH]; intros st.
  - cbn. destruct (run_slices _ _ _ _ _ _ l2 st). reflexivity.
  - cbn [app run_slices].
    destruct (place_market_order _ _ _ _ _) as [res st1].
    rewrite IH.
    destruct (run_slices _ _ _ _ _ _ l1 _) as [rs1 st2].
    destruct (run_slices _ _ _ _ _ _ l2 _) as [rs2 st3].
    reflexivity.
Qed.

(** The orders of a run carry the planned quantities, in order. *)
Lemma run_slices_quantities symbol side qty slices interval_s l st :
  submitted_quantities
    (trace (snd (run_slices futures_create_order symbol side qty slices
                   interval_s l st)))
  = submitted_quantities (trace st) ++ map qty l.
Proof.
  revert st. induction l as [|i l IH]; intros st.
  - cbn. by rewrite app_nil_r.
  - cbn [run_slices map].
    pose proof (place_market_order_trace symbol side (qty i) st) as Htr.
    destruct (place_market_order _ _ _ _ _) as [res st1]. cbn in Htr.
    set (st2 := if i <? slices - 1 then emit (Sleep interval_s) st1
                else st1).
    specialize (IH st2).
    destruct (run_slices _ _ _ _ _ _ l st2) as [rs st3]. cbn in *.
    rewrite IH.
    assert (submitted_quantities (trace st2)
            = submitted_quantities (trace st) ++ [qty i]) as ->.
    { unfold st2. destruct (i <? slices - 1); cbn [emit trace];
        rewrite Htr, ?submitted_quantities_app; cbn;
        rewrite ?app_nil_r; reflexivity. }
    by rewrite <- app_assoc.
Qed.

(** The sleeps of a run: one after each slice but the last. *)
Lemma run_slices_sleeps symbol side qty slices interval_s l st :
  filter (fun ev => is_sleep ev = true)
    (trace (snd (run_slices futures_create_order symbol side qty slices
                   interval_s l st)))
  = filter (fun ev => is_sleep ev = true) (trace st)
    ++ map (fun _ => Sleep interval_s)
         (filter (fun i => (i <? slices - 1) = true) l).
Proof.
  revert st. induction l as [|i l IH]; intros st.
  - cbn. by rewrite app_nil_r.
  - cbn [run_slices].
    pose proof (place_market_order_trace symbol side (qty i) st) as Htr.
    destruct (place_market_order _ _ _ _ _) as [res st1]. cbn in Htr.
    set (st2 := if i <? slices - 1 then emit (Sleep interval_s) st1
                else st1).
    specialize (IH st2).
    destruct (run_slices _ _ _ _ _ _ l st2) as [rs st3]. cbn [fst snd] in *.
    rewrite IH. unfold st2.
    rewrite filter_cons.
    destruct (decide ((i <? slices - 1) = true)) as [Hi|Hi].
    + rewrite Hi. cbn [emit trace]. rewrite Htr, !filter_app. cbn.
      rewrite app_nil_r, <- app_assoc. reflexivity.
    + apply not_true_is_false in Hi. rewrite Hi, Htr, filter_app. cbn.
      rewrite app_nil_r. reflexivity.
Qed.

End BasicBotFacts.

Section TwapFacts.

Context {World : Type}.
Variable futures_create_order :
  World -> gmap string pyval -> client_outcome * World.
Variable time_sleep : Z -> option pyexn.

Implicit Types (st : @state World) (symbol side : string) (l : list Z).

(** A call with a valid number of slices that converts, and whose waits
    are accepted, is the adapter run over the slices [0 .. slices - 1]. *)
Lemma place_twap_run symbol side total slices interval_s n k st :
  1 <= slices ->
  py_float_of_int slices = Some n ->
  py_float_of_int (slices - 1) = Some k ->
  slices = 1 \/ time_sleep interval_s = None ->
  place_twap futures_create_order time_sleep symbol side total slices
    interval_s st
  = (let '(rs, st') :=
       run_slices futures_create_order symbol side
         (slice_quantity total slices n k) slices interval_s
         (seqZ 0 slices) st in
     (Returned rs, st')).
Proof.
  intros H1 Hn Hk Hsleep. unfold place_twap.
  destruct (Z.leb_spec slices 0); [lia|].
  unfold bind at 1. unfold int_operand. rewrite Hn. unfold ret at 1.
  rewrite (for_each_run _ _ _ _ _ _ _ n k); [reflexivity|exact Hk|].
  intros i Hi Hlt. destruct Hsleep as [->|Hs]; [|exact Hs].
  apply elem_of_seqZ in Hi. apply Z.ltb_lt in Hlt. lia.
Qed.

(** Whatever a turn of the loop raises comes from the conversion of
    [slices - 1] or from [time.sleep]. *)
Lemma twap_slice_raises symbol side total slices interval_s base i results
    st e st' :
  twap_slice futures_create_order time_sleep symbol side total slices
    interval_s base i results st = (Raised e, st') ->
  e = OverflowError "int too large to convert to float"
  \/ time_sleep interval_s = Some e.
Proof.
  unfold twap_slice, bind, lift, ret, int_operand, sleep, raise.
  destruct (i <? slices - 1).
  - destruct (place_market_order _ _ _ _ _) as [res st1].
    destruct (time_sleep interval_s) as [e'|] eqn:Hs; intros H;
      inversion H; subst; auto.
  - destruct (py_float_of_int (slices - 1)); unfold ret, raise;
      cbv beta iota.
    + destruct (place_market_order _ _ _ _ _) as [res st1].
      intros H; inversion H.
    + intros H; inversion H; auto.
Qed.

Lemma for_each_raises symbol side total slices interval_s base l :
  forall results st e st',
    for_each
      (twap_slice futures_create_order time_sleep symbol side total slices
         interval_s base) l results st = (Raised e, st') ->
    e = OverflowError "int too large to convert to float"
    \/ time_sleep interval_s = Some e.
Proof.
  induction l as [|i l IH]; intros results st e st'.
  - cbn. unfold ret. intros H; inversion H.
  - cbn [for_each]. unfold bind at 1.
    destruct (twap_slice _ _ _ _ _ _ _ _ _ _ st) as [[acc|e1] st1] eqn:Hs.
    + apply IH.
    + intros H; inversion H; subst.
      eapply twap_slice_raises; exact Hs.
Qed.

(** When the waits are accepted, the quantities submitted by a call are
    the planned ones, whatever else happens. *)
Lemma place_twap_quantities symbol side total slices interval_s st :
  slices <= 1 \/ time_sleep interval_s = None ->
  submitted_quantities
    (trace (snd (place_twap futures_create_order time_sleep symbol side
                   total slices interval_s st)))
  = submitted_quantities (trace st) ++ twap_quantities total slices.
Proof.
  intros Hsleep. unfold twap_quantities.
  destruct (Z.leb_spec slices 0) as [H0|H1].
  - unfold place_twap.
    destruct (Z.leb_spec slices 0); [|lia].
    cbn. by rewrite app_nil_r.
  - destruct (py_float_of_int slices) as [n|] eqn:Hn.
    + destruct (py_float_of_int_pred slices n) as [k Hk]; [lia|done|].
      rewrite Hk.
      rewrite (place_twap_run _ _ _ _ _ n k);
        [|lia|done|done|destruct Hsleep; [left; lia|by right]].
      pose proof (run_slices_quantities futures_create_order symbol side
                    (slice_quantity total slices n k) slices interval_s
                    (seqZ 0 slices) st) as Hq.
      destruct (run_slices _ _ _ _ _ _ _ _) as [rs st']. exact Hq.
    + unfold place_twap.
      destruct (Z.leb_spec slices 0); [lia|].
      unfold bind, int_operand. rewrite Hn. cbn. by rewrite app_nil_r.
Qed.

End TwapFacts.

(** ** The exchange adapter *)

(** C3. When the exchange call raises an exception carrying the message
    [m], each of the three order operations returns the error descriptor
    [{"error": m}] instead of raising; an exchange exception with the
    message "Insufficient margin" gives [{"error": "Insufficient margin"}]. *)
Theorem adapter_returns_error_descriptor :
  forall (World : Type)
         (futures_create_order :
            World -> gmap string pyval -> client_outcome * World)
         (symbol side : string) (quantity price stop_price : float)
         (st : @state World) (e : client_exn),
    (fst (futures_create_order (world st)
            (market_params symbol side quantity)) = Raises e ->
     fst (place_market_order futures_create_order symbol side quantity st)
     = PyDict {[ "error" := PyStr (message_of e) ]})
    /\ (fst (futures_create_order (world st)
               (limit_params symbol side quantity price)) = Raises e ->
        fst (place_limit_order futures_create_order symbol side quantity
               price st)
        = PyDict {[ "error" := PyStr (message_of e) ]})
    /\ (fst (futures_create_order (world st)
               (stop_limit_params symbol side quantity price stop_price))
        = Raises e ->
        fst (place_stop_limit futures_create_order symbol side quantity
               price stop_price st)
        = PyDict {[ "error" := PyStr (message_of e) ]})
    /\ (forall kwargs str_e,
          fst (futures_create_order (world st) kwargs)
          = Raises (BinanceAPIException (Some "Insufficient margin") str_e) ->
          fst (_safe_execute futures_create_order kwargs st)
          = PyDict {[ "error" := PyStr "Insufficient margin" ]}).
Proof.
  intros World fco symbol side quantity price stop_price st e.
  assert (Hwrap : forall kwargs,
             fst (fco (world st) kwargs) = Raises e ->
             fst (_safe_execute fco kwargs st)
             = PyDict {[ "error" := PyStr (message_of e) ]}).
  { intros kwargs. unfold _safe_execute.
    destruct (fco (world st) kwargs) as [r w']. cbn [fst].
    intros ->. destruct e as [[m|] str_e|str_e]; reflexivity. }
  assert (Hmargin : forall kwargs str_e,
             fst (fco (world st) kwargs)
             = Raises (BinanceAPIException (Some "Insufficient margin")
                         str_e) ->
             fst (_safe_execute fco kwargs st)
             = PyDict {[ "error" := PyStr "Insufficient margin" ]}).
  { intros kwargs str_e. unfold _safe_execute.
    destruct (fco (world st) kwargs) as [r w']. cbn [fst].
    intros ->. reflexivity. }
  repeat split.
  - apply Hwrap.
  - apply Hwrap.
  - apply Hwrap.
  - apply Hmargin.
Qed.

(** The exchange rejects the first order for lack of margin. *)
Lemma adapter_returns_error_descriptor_witness :
  fst (rejecting_client 0 (world (fresh 0%nat))
         (market_params "BTCUSDT" "BUY" lit_1_0))
  = Raises (BinanceAPIException (Some "Insufficient margin")
              "APIError(code=-2019): Insufficient margin")
  /\ fst (place_market_order (rejecting_client 0) "BTCUSDT" "BUY" lit_1_0
            (fresh 0%nat))
     = PyDict {[ "error" := PyStr "Insufficient margin" ]}.
Proof.
  split; [reflexivity|].
  apply (proj1 (adapter_returns_error_descriptor nat (rejecting_client 0)
                  "BTCUSDT" "BUY" lit_1_0 lit_1_0 lit_1_0 (fresh 0%nat)
                  (BinanceAPIException (Some "Insufficient margin")
                     "APIError(code=-2019): Insufficient margin"))).
  reflexivity.
Defined.

(** C7. The result of an order operation is exactly one of two things: the
    response that the client returned, unchanged, or the error descriptor
    of the exception that the client raised. *)
Theorem order_result_exactly_one :
  forall (World : Type)
         (futures_create_order :
            World -> gmap string pyval -> client_outcome * World)
         (symbol side : string) (quantity price stop_price : float)
         (st : @state World),
    let one_of (kwargs : gmap string pyval) (res : pyval) :=
      let r := fst (futures_create_order (world st) kwargs) in
      let success := exists p, r = Returns p /\ res = p in
      let failure :=
        exists e, r = Raises e
                  /\ res = PyDict {[ "error" := PyStr (message_of e) ]} in
      (success /\ ~ failure) \/ (failure /\ ~ success) in
    one_of (market_params symbol side quantity)
      (fst (place_market_order futures_create_order symbol side quantity st))
    /\ one_of (limit_params symbol side quantity price)
         (fst (place_limit_order futures_create_order symbol side quantity
                 price st))
    /\ one_of (stop_limit_params symbol side quantity price stop_price)
         (fst (place_stop_limit futures_create_order symbol side quantity
                 price stop_price st)).
Proof.
  intros World fco symbol side quantity price stop_price st one_of.
  assert (Hwrap : forall kwargs,
             one_of kwargs (fst (_safe_execute fco kwargs st))).
  { intros kwargs. unfold one_of, _safe_execute.
    destruct (fco (world st) kwargs) as [[resp|e] w']; cbn [fst].
    - left. split; [by exists resp|].
      intros (e & He & _). discriminate.
    - right. split.
      + exists e. split; [reflexivity|].
        destruct e as [[m|] str_e|str_e]; reflexivity.
      + intros (p & Hp & _). discriminate. }
  repeat split; apply Hwrap.
Qed.


(** ** The TWAP slicer *)

(** C2. With [slices <= 0] the call raises [ValueError] and nothing has
    happened: no order, no wait.  With [slices >= 1] the check raises
    nothing: an exception that leaves the call is the overflow of an
    integer conversion or comes from [time.sleep]. *)
Theorem place_twap_checks_slices :
  forall (World : Type)
         (futures_create_order :
            World -> gmap string pyval -> client_outcome * World)
         (time_sleep : Z -> option pyexn)
         (symbol side : string) (total_quantity : float)
         (slices interval_s : Z) (st : @state World),
    (slices <= 0 ->
     place_twap futures_create_order time_sleep symbol side total_quantity
       slices interval_s st
     = (Raised (ValueError "slices must be >= 1"), st))
    /\ (1 <= slices ->
        forall e st',
          place_twap futures_create_order time_sleep symbol side
            total_quantity slices interval_s st = (Raised e, st') ->
          e = OverflowError "int too large to convert to float"
          \/ time_sleep interval_s = Some e).
Proof.
  intros World fco ts symbol side total slices interval_s st. split.
  - intros H0. unfold place_twap.
    destruct (Z.leb_spec slices 0); [reflexivity|lia].
  - intros H1 e st'. unfold place_twap.
    destruct (Z.leb_spec slices 0); [lia|].
    unfold bind at 1. unfold int_operand.
    destruct (py_float_of_int slices) as [n|].
    + unfold ret at 1. apply for_each_raises.
    + unfold raise. intros H'; inversion H'. by left.
Qed.

(** No slice: the error, and an untouched state.  Two slices and a refused
    wait: the exception is the one of [time.sleep]. *)
Lemma place_twap_checks_slices_witness :
  place_twap accepting_client cpython_sleep "BTCUSDT" "BUY" lit_1_0 0 1
    (fresh 0%nat)
  = (Raised (ValueError "slices must be >= 1"), fresh 0%nat)
  /\ (ValueError "sleep length must be non-negative"
      = OverflowError "int too large to convert to float"
      \/ cpython_sleep (-1)
         = Some (ValueError "sleep length must be non-negative")).
Proof.
  split.
  - apply (proj1 (place_twap_checks_slices nat accepting_client cpython_sleep
                    "BTCUSDT" "BUY" lit_1_0 0 1 (fresh 0%nat))).
    lia.
  - apply (proj2 (place_twap_checks_slices nat accepting_client cpython_sleep
                    "BTCUSDT" "BUY" lit_1_0 2 (-1) (fresh 0%nat))
             ltac:(lia)
             (ValueError "sleep length must be non-negative")
             (snd (place_twap accepting_client cpython_sleep "BTCUSDT" "BUY"
                     lit_1_0 2 (-1) (fresh 0%nat)))).
    vm_compute. reflexivity.
Defined.

(** The result of slice [i] is found at position [i]: it is what the
    adapter returned in the state left by the slices before it. *)
Lemma run_slices_lookup {World : Type}
    (futures_create_order :
       World -> gmap string pyval -> client_outcome * World)
    (symbol side : string) (qty : Z -> float) (slices interval_s : Z)
    (st : @state World) (i : Z) :
  0 <= i < slices ->
  fst (run_slices futures_create_order symbol side qty slices interval_s
         (seqZ 0 slices) st) !! Z.to_nat i
  = Some (fst (place_market_order futures_create_order symbol side (qty i)
                 (snd (run_slices futures_create_order symbol side qty
                         slices interval_s (seqZ 0 i) st)))).
Proof.
  intros Hi.
  replace slices with (i + (slices - i)) at 2 by lia.
  rewrite seqZ_app by lia.
  rewrite (seqZ_cons (0 + i)) by lia.
  rewrite run_slices_app.
  pose proof (run_slices_length futures_create_order symbol side qty slices
                interval_s (seqZ 0 i) st) as Hlen.
  destruct (run_slices _ _ _ _ _ _ (seqZ 0 i) st) as [rs1 st1].
  cbn [run_slices fst snd] in *. rewrite Z.add_0_l.
  destruct (place_market_order _ _ _ _ st1) as [res st2].
  destruct (run_slices _ _ _ _ _ _ _ _) as [rs3 st3]. cbn [fst].
  apply list_lookup_middle. rewrite Hlen, length_seqZ. reflexivity.
Qed.

(** Five slices, the exchange rejects the second one. *)
Lemma place_twap_second_of_five_rejected :
  fst (place_twap (rejecting_client 1) cpython_sleep "BTCUSDT" "BUY" lit_1_0
         5 0 (fresh 0%nat))
  = Returned [accepted 0; error_descriptor "Insufficient margin";
              accepted 2; accepted 3; accepted 4].
Proof. vm_compute. reflexivity. Qed.

(** C4, as the code has it.  For a number of slices [N >= 1] that converts
    to a float, and a wait that [time.sleep] accepts (or [N = 1], which
    never waits), the call returns a list of exactly [N] results; the
    result at position [i] is what the adapter returned for slice [i], in
    the order of execution, whether that is a response or an error
    descriptor.  With five slices of which the exchange rejects the second,
    the list has the error descriptor at the second place and the four
    responses around it. *)
Theorem place_twap_results_in_order :
  (forall (World : Type)
          (futures_create_order :
             World -> gmap string pyval -> client_outcome * World)
          (time_sleep : Z -> option pyexn)
          (symbol side : string) (total_quantity : float)
          (slices interval_s : Z) (st : @state World),
      1 <= slices ->
      slices < int_overflow_bound ->
      slices = 1 \/ time_sleep interval_s = None ->
      exists n k rs st',
        py_float_of_int slices = Some n
        /\ py_float_of_int (slices - 1) = Some k
        /\ place_twap futures_create_order time_sleep symbol side
             total_quantity slices interval_s st = (Returned rs, st')
        /\ length rs = Z.to_nat slices
        /\ forall i,
             0 <= i < slices ->
             rs !! Z.to_nat i
             = Some (fst (place_market_order futures_create_order symbol side
                            (slice_quantity total_quantity slices n k i)
                            (snd (run_slices futures_create_order symbol side
                                    (slice_quantity total_quantity slices n k)
                                    slices interval_s (seqZ 0 i) st)))))
  /\ fst (place_twap (rejecting_client 1) cpython_sleep "BTCUSDT" "BUY"
            lit_1_0 5 0 (fresh 0%nat))
     = Returned [accepted 0; error_descriptor "Insufficient margin";
                 accepted 2; accepted 3; accepted 4].
Proof.
  split; [|exact place_twap_second_of_five_rejected].
  intros World fco ts symbol side total slices interval_s st H1 Hb Hsleep.
  destruct (py_float_of_int_below slices) as [n Hn]; [lia|].
  destruct (py_float_of_int_below (slices - 1)) as [k Hk]; [lia|].
  pose proof (place_twap_run fco ts symbol side total slices interval_s n k
                st H1 Hn Hk Hsleep) as Hrun.
  pose proof (run_slices_length fco symbol side
                (slice_quantity total slices n k) slices interval_s
                (seqZ 0 slices) st) as Hlen.
  pose proof (run_slices_lookup fco symbol side
                (slice_quantity total slices n k) slices interval_s st)
    as Hlook.
  destruct (run_slices fco symbol side (slice_quantity total slices n k)
              slices interval_s (seqZ 0 slices) st) as [rs st'].
  exists n, k, rs, st'. cbn [fst] in *.
  rewrite length_seqZ in Hlen. auto.
Qed.

(** Three slices, one second apart, on a client that accepts everything. *)
Lemma place_twap_results_in_order_witness :
  1 <= 3 /\ 3 < int_overflow_bound /\ cpython_sleep 1 = None
  /\ exists rs st',
       place_twap accepting_client cpython_sleep "BTCUSDT" "BUY" lit_1_0 3 1
         (fresh 0%nat) = (Returned rs, st')
       /\ length rs = 3%nat.
Proof.
  split; [lia|]. split; [reflexivity|]. split; [reflexivity|].
  destruct (proj1 place_twap_results_in_order nat accepting_client
              cpython_sleep "BTCUSDT" "BUY" lit_1_0 3 1 (fresh 0%nat))
    as (n & k & rs & st' & _ & _ & Hrun & Hlen & _).
  - lia.
  - reflexivity.
  - right. reflexivity.
  - exists rs, st'. split; [exact Hrun|exact Hlen].
Defined.

(** C4 as stated fails.  With two slices and a negative interval the first
    order is sent, [time.sleep] refuses the wait and the exception leaves
    the call: no list is returned.  With a number of slices too large for a
    float the call raises before the loop. *)
Lemma place_twap_returns_no_list :
  (place_twap accepting_client cpython_sleep "BTCUSDT" "BUY" lit_1_0 2 (-1)
     (fresh 0%nat)
   = (Raised (ValueError "sleep length must be non-negative"),
      State 1%nat [Dispatch (market_params "BTCUSDT" "BUY"
                               (float_of_ratio false 1 2))])
   /\ ~ exists rs st',
         place_twap accepting_client cpython_sleep "BTCUSDT" "BUY" lit_1_0 2
           (-1) (fresh 0%nat) = (Returned rs, st')
         /\ length rs = 2%nat)
  /\ (place_twap accepting_client cpython_sleep "BTCUSDT" "BUY" lit_1_0
        int_overflow_bound 0 (fresh 0%nat)
      = (Raised (OverflowError "int too large to convert to float"),
         fresh 0%nat)
      /\ ~ exists rs st',
            place_twap accepting_client cpython_sleep "BTCUSDT" "BUY" lit_1_0
              int_overflow_bound 0 (fresh 0%nat) = (Returned rs, st')
            /\ length rs = Z.to_nat int_overflow_bound).
Proof.
  assert (H2 : place_twap accepting_client cpython_sleep "BTCUSDT" "BUY"
                 lit_1_0 2 (-1) (fresh 0%nat)
               = (Raised (ValueError "sleep length must be non-negative"),
                  State 1%nat [Dispatch (market_params "BTCUSDT" "BUY"
                                           (float_of_ratio false 1 2))]))
    by (vm_compute; reflexivity).
  assert (Hbig : place_twap accepting_client cpython_sleep "BTCUSDT" "BUY"
                   lit_1_0 int_overflow_bound 0 (fresh 0%nat)
                 = (Raised (OverflowError "int too large to convert to float"),
                    fresh 0%nat))
    by (vm_compute; reflexivity).
  split; (split; [assumption|]).
  - intros (rs & st' & Hrun & _). rewrite H2 in Hrun. discriminate.
  - intros (rs & st' & Hrun & _). rewrite Hbig in Hrun. discriminate.
Qed.

(** The quantity of the one slice of a single-slice plan. *)
Lemma slice_quantity_single (total : float) :
  is_float total -> is_finite total = true ->
  slice_quantity total 1 (S754_finite false 4503599627370496 (-52))
    (S754_zero false) 0
  = if is_zero total then S754_zero false else py_round8 total.
Proof.
  intros Hvalid Hfin. unfold slice_quantity. cbn [Z.ltb Z.sub Z.add Z.compare].
  change (0 <? 1 - 1) with false. cbv iota.
  destruct total as [s| |  |s m e]; try discriminate.
  - destruct s; reflexivity.
  - rewrite fdiv_one by exact Hvalid. cbn [is_zero]. reflexivity.
Qed.

(** C6, as the code has it.  With [slices = 1] and a finite total, exactly
    one market order is dispatched and nothing else happens: no wait, for
    any interval.  Its quantity is [round(total_quantity, 8)], which is the
    total itself only when the total has no more than eight decimals (a
    total of zero is sent as [0.0]). *)
Theorem place_twap_single_slice :
  forall (World : Type)
         (futures_create_order :
            World -> gmap string pyval -> client_outcome * World)
         (time_sleep : Z -> option pyexn)
         (symbol side : string) (total_quantity : float)
         (interval_s : Z) (st : @state World),
    is_float total_quantity ->
    is_finite total_quantity = true ->
    exists qty res st',
      qty = (if is_zero total_quantity then S754_zero false
             else py_round8 total_quantity)
      /\ place_twap futures_create_order time_sleep symbol side
           total_quantity 1 interval_s st = (Returned [res], st')
      /\ place_market_order futures_create_order symbol side qty st
         = (res, st')
      /\ trace st' = trace st ++ [Dispatch (market_params symbol side qty)].
Proof.
  intros World fco ts symbol side total interval_s st Hvalid Hfin.
  pose proof (place_twap_run fco ts symbol side total 1 interval_s
                (S754_finite false 4503599627370496 (-52))
                (S754_zero false) st) as Hrun.
  rewrite Hrun; [|lia|reflexivity|reflexivity|by left].
  change (seqZ 0 1) with [0]. cbn [run_slices].
  rewrite slice_quantity_single by assumption.
  change (0 <? 1 - 1) with false. cbv iota.
  match goal with
  | |- context [place_market_order fco symbol side ?q st] => set (qty := q)
  end.
  pose proof (place_market_order_trace fco symbol side qty st) as Htr.
  destruct (place_market_order fco symbol side qty st) as [res st1] eqn:Hpm.
  exists qty, res, st1. cbn [snd] in Htr.
  split; [reflexivity|]. split; [reflexivity|]. split; [exact Hpm|exact Htr].
Qed.

(** A single slice of [0.0009765625]. *)
Lemma place_twap_single_slice_witness :
  is_float lit_2_pow_m10 /\ is_finite lit_2_pow_m10 = true
  /\ exists res st',
       place_twap accepting_client cpython_sleep "BTCUSDT" "BUY"
         lit_2_pow_m10 1 60 (fresh 0%nat) = (Returned [res], st')
       /\ trace st'
          = [Dispatch (market_params "BTCUSDT" "BUY" (dec8 97656))].
Proof.
  split; [reflexivity|]. split; [reflexivity|].
  destruct (place_twap_single_slice nat accepting_client cpython_sleep
              "BTCUSDT" "BUY" lit_2_pow_m10 60 (fresh 0%nat))
    as (qty & res & st' & Hq & Hrun & _ & Htr).
  - reflexivity.
  - reflexivity.
  - exists res, st'. split; [exact Hrun|].
    rewrite Htr, Hq. vm_compute. reflexivity.
Defined.

(** C6 as stated fails: the one order of a single-slice plan for
    [0.0009765625] carries [0.00097656], not the full total. *)
Lemma place_twap_single_slice_is_rounded :
  submitted_quantities
    (trace (snd (place_twap accepting_client cpython_sleep "BTCUSDT" "BUY"
                   lit_2_pow_m10 1 0 (fresh 0%nat))))
  = [dec8 97656]
  /\ feqb (dec8 97656) lit_2_pow_m10 = false
  /\ submitted_quantities
       (trace (snd (place_twap accepting_client cpython_sleep "BTCUSDT" "BUY"
                      lit_2_pow_m10 1 0 (fresh 0%nat))))
     <> [lit_2_pow_m10].
Proof.
  assert (H : submitted_quantities
                (trace (snd (place_twap accepting_client cpython_sleep
                               "BTCUSDT" "BUY" lit_2_pow_m10 1 0
                               (fresh 0%nat))))
              = [dec8 97656]) by (vm_compute; reflexivity).
  split; [exact H|]. split; [vm_compute; reflexivity|].
  rewrite H. vm_compute. discriminate.
Qed.

(** A function that is constant on a list maps it to copies of the
    constant. *)
Lemma map_constant {A B : Type} (f : A -> B) (c : B) (l : list A) :
  (forall x, x ∈ l -> f x = c) -> map f l = repeat c (length l).
Proof.
  induction l as [|a l IH]; intros Hc; [reflexivity|].
  cbn. rewrite (Hc a) by left. rewrite IH; [reflexivity|].
  intros x Hx. apply Hc. by right.
Qed.

(** The plan: equal slices and a remainder. *)
Lemma twap_quantities_shape (total : float) (slices : Z) (n k : float) :
  1 <= slices ->
  py_float_of_int slices = Some n ->
  py_float_of_int (slices - 1) = Some k ->
  twap_quantities total slices
  = repeat (py_round8 (fdiv total n)) (Z.to_nat (slices - 1))
    ++ [py_round8 (fsub total (fmul (fdiv total n) k))].
Proof.
  intros H1 Hn Hk. unfold twap_quantities.
  destruct (Z.leb_spec slices 0); [lia|]. rewrite Hn, Hk.
  replace slices with ((slices - 1) + 1) at 2 by lia.
  rewrite seqZ_app by lia. rewrite map_app. f_equal.
  - rewrite (map_constant _ (py_round8 (fdiv total n))).
    + by rewrite length_seqZ.
    + intros i Hi. apply elem_of_seqZ in Hi. unfold slice_quantity.
      destruct (Z.ltb_spec i (slices - 1)); [reflexivity|lia].
  - change (seqZ (0 + (slices - 1)) 1) with [0 + (slices - 1)].
    cbn [map]. unfold slice_quantity.
    destruct (Z.ltb_spec (0 + (slices - 1)) (slices - 1)); [lia|reflexivity].
Qed.

(** *** The sign of a rounded result *)

Lemma shr_1_nonneg (r : shr_record) : 0 <= shr_m r -> 0 <= shr_m (shr_1 r).
Proof.
  destruct r as [m r s]. cbn [shr_m]. intros Hm.
  destruct m as [|[p|p|]|p]; cbn; lia.
Qed.

Lemma iter_shr_1_nonneg (p : positive) :
  forall r, 0 <= shr_m r -> 0 <= shr_m (SpecFloat.iter_pos shr_1 p r).
Proof.
  induction p as [p IH|p IH|]; intros r Hr; cbn [SpecFloat.iter_pos].
  - apply IH, IH, shr_1_nonneg, Hr.
  - apply IH, IH, Hr.
  - apply shr_1_nonneg, Hr.
Qed.

Lemma shr_fexp_nonneg (m e : Z) (l : location) :
  0 <= m -> 0 <= shr_m (fst (shr_fexp prec emax m e l)).
Proof.
  intros Hm. unfold shr_fexp, shr.
  assert (Hr : 0 <= shr_m (shr_record_of_loc m l))
    by (destruct l as [|[| |]]; exact Hm).
  destruct (_ - e) as [|p|p]; cbn [fst]; [exact Hr| |exact Hr].
  apply iter_shr_1_nonneg, Hr.
Qed.

Lemma round_nearest_even_nonneg (m : Z) (l : location) :
  0 <= m -> 0 <= round_nearest_even m l.
Proof.
  intros Hm. destruct l as [|[| |]]; cbn; try lia.
  destruct (Z.even m); lia.
Qed.

(** Rounding keeps the sign it is given and never makes a NaN. *)
Lemma binary_round_aux_sign (s : bool) (m e : Z) (l : location) :
  0 <= m -> sign_bit (binary_round_aux prec emax s m e l) = s.
Proof.
  intros Hm. unfold binary_round_aux.
  pose proof (shr_fexp_nonneg m e l Hm) as H1.
  destruct (shr_fexp prec emax m e l) as [mrs' e']. cbn [fst] in H1.
  pose proof (shr_fexp_nonneg
                (round_nearest_even (shr_m mrs') (loc_of_shr_record mrs'))
                e' loc_Exact (round_nearest_even_nonneg _ _ H1)) as H2.
  destruct (shr_fexp prec emax _ e' loc_Exact) as [mrs'' e'']. cbn [fst] in H2.
  destruct (shr_m mrs'') as [|p|p]; [reflexivity| |lia].
  destruct (_ <=? _); reflexivity.
Qed.

Lemma SFdiv_core_binary_nonneg (m1 m2 : positive) (e1 e2 : Z) :
  0 <= fst (fst (SFdiv_core_binary prec emax (Zpos m1) e1 (Zpos m2) e2)).
Proof.
  unfold SFdiv_core_binary. rewrite div_eucl_pair. cbn [fst].
  apply Z.div_pos; [|lia].
  destruct (_ - _ - _) as [|p|p]; [lia| |lia].
  apply Z.shiftl_nonneg. lia.
Qed.

Lemma fdiv_sign (s1 s2 : bool) (m1 m2 : positive) (e1 e2 : Z) :
  sign_bit (fdiv (S754_finite s1 m1 e1) (S754_finite s2 m2 e2))
  = xorb s1 s2.
Proof.
  unfold fdiv, SFdiv.
  pose proof (SFdiv_core_binary_nonneg m1 m2 e1 e2) as Hq.
  destruct (SFdiv_core_binary prec emax _ e1 _ e2) as [[mz ez] lz].
  cbn [fst] in Hq. apply binary_round_aux_sign, Hq.
Qed.

Lemma float_of_ratio_sign (s : bool) (n d : positive) :
  sign_bit (float_of_ratio s n d) = s.
Proof.
  unfold float_of_ratio.
  pose proof (SFdiv_core_binary_nonneg n d 0 0) as Hq.
  destruct (SFdiv_core_binary prec emax _ 0 _ 0) as [[mz ez] lz].
  cbn [fst] in Hq. apply binary_round_aux_sign, Hq.
Qed.

(** [round(x, 8)] keeps the sign of [x], also when the result is zero. *)
Lemma py_round8_sign (x : float) : sign_bit (py_round8 x) = sign_bit x.
Proof.
  destruct x as [s|s| |s m e]; try reflexivity.
  unfold py_round8. destruct (if 0 <=? e then _ else _) as [|n|n];
    [reflexivity| |reflexivity].
  apply float_of_ratio_sign.
Qed.

(** The unit slice of a negative total keeps its sign. *)
Lemma unit_slice_sign (total n : float) :
  is_negative total = true ->
  (exists m e, n = S754_finite false m e) ->
  sign_bit (py_round8 (fdiv total n)) = true.
Proof.
  intros Hneg (m & e & ->).
  destruct total as [s|s| |[|] m' e']; try discriminate.
  rewrite py_round8_sign. apply fdiv_sign.
Qed.

(** Every slice of a total of zero is zero. *)
Lemma slice_quantity_zero (s : bool) (slices : Z) (n k : float) (i : Z) :
  (exists m e, n = S754_finite false m e) ->
  (k = S754_zero false \/ exists m e, k = S754_finite false m e) ->
  is_zero (slice_quantity (S754_zero s) slices n k i) = true.
Proof.
  intros (m & e & ->) Hk. unfold slice_quantity.
  destruct (i <? slices - 1); [reflexivity|].
  destruct Hk as [->|(m' & e' & ->)]; destruct s; reflexivity.
Qed.

Lemma twap_quantities_length (total : float) (slices : Z) :
  1 <= slices < int_overflow_bound ->
  length (twap_quantities total slices) = Z.to_nat slices.
Proof.
  intros Hs. unfold twap_quantities.
  destruct (Z.leb_spec slices 0); [lia|].
  destruct (py_float_of_int_below slices) as [n ->]; [lia|].
  destruct (py_float_of_int_below (slices - 1)) as [k ->]; [lia|].
  by rewrite length_map, length_seqZ.
Qed.

Lemma twap_quantities_zero (s : bool) (slices : Z) :
  Forall (fun q => is_zero q = true) (twap_quantities (S754_zero s) slices).
Proof.
  unfold twap_quantities.
  destruct (Z.leb_spec slices 0); [constructor|].
  destruct (py_float_of_int slices) as [n|] eqn:Hn; [|constructor].
  destruct (py_float_of_int (slices - 1)) as [k|] eqn:Hk; [|constructor].
  apply Forall_map, Forall_forall. intros i _.
  apply slice_quantity_zero.
  - apply (py_float_of_int_positive slices); [lia|done].
  - apply (py_float_of_int_nonneg (slices - 1)); [lia|done].
Qed.

(** The plan for a total of [-1.0] in three slices. *)
Lemma place_twap_negative_total :
  submitted_quantities
    (trace (snd (place_twap accepting_client cpython_sleep "BTCUSDT" "BUY"
                   lit_minus_1_0 3 0 (fresh 0%nat))))
  = [float_of_ratio true 33333333 (10 ^ 8);
     float_of_ratio true 33333333 (10 ^ 8);
     float_of_ratio true 33333333 (10 ^ 8)]
  /\ is_negative (float_of_ratio true 33333333 (10 ^ 8)) = true.
Proof. split; vm_compute; reflexivity. Qed.

(** C9, as the code has it.  [place_twap] does not look at the total.  For
    a number of slices [N >= 1] that converts to a float and a wait that
    [time.sleep] accepts (or [N = 1]), the call returns after dispatching
    the [N] planned market orders, whatever the total is; for a total of
    zero each of the [N] quantities is zero; for a negative finite total
    every slice but the last carries one and the same quantity, which is
    negative or [-0.0], never positive; a total of [-1.0] in three slices is
    sent as three orders of [-0.33333333]. *)
Theorem place_twap_accepts_any_total :
  (forall (World : Type)
          (futures_create_order :
             World -> gmap string pyval -> client_outcome * World)
          (time_sleep : Z -> option pyexn)
          (symbol side : string) (total_quantity : float)
          (slices interval_s : Z) (st : @state World),
      1 <= slices ->
      slices < int_overflow_bound ->
      slices = 1 \/ time_sleep interval_s = None ->
      exists rs st',
        place_twap futures_create_order time_sleep symbol side
          total_quantity slices interval_s st = (Returned rs, st')
        /\ submitted_quantities (trace st')
           = submitted_quantities (trace st)
             ++ twap_quantities total_quantity slices
        /\ length (twap_quantities total_quantity slices) = Z.to_nat slices
        /\ (is_zero total_quantity = true ->
            Forall (fun q => is_zero q = true)
              (twap_quantities total_quantity slices))
        /\ (is_negative total_quantity = true ->
            exists unit last,
              twap_quantities total_quantity slices
              = repeat unit (Z.to_nat (slices - 1)) ++ [last]
              /\ sign_bit unit = true))
  /\ (submitted_quantities
        (trace (snd (place_twap accepting_client cpython_sleep "BTCUSDT"
                       "BUY" lit_minus_1_0 3 0 (fresh 0%nat))))
      = [float_of_ratio true 33333333 (10 ^ 8);
         float_of_ratio true 33333333 (10 ^ 8);
         float_of_ratio true 33333333 (10 ^ 8)]
      /\ is_negative (float_of_ratio true 33333333 (10 ^ 8)) = true).
Proof.
  split; [|exact place_twap_negative_total].
  intros World fco ts symbol side total slices interval_s st H1 Hb Hsleep.
  destruct (py_float_of_int_below slices) as [n Hn]; [lia|].
  destruct (py_float_of_int_below (slices - 1)) as [k Hk]; [lia|].
  pose proof (place_twap_quantities fco ts symbol side total slices
                interval_s st) as Hq.
  rewrite (place_twap_run fco ts symbol side total slices interval_s n k)
    in * by assumption.
  destruct (run_slices fco symbol side (slice_quantity total slices n k)
              slices interval_s (seqZ 0 slices) st) as [rs st'].
  exists rs, st'. split; [reflexivity|]. split.
  - apply Hq. destruct Hsleep as [->|Hs]; [left; lia|by right].
  - split; [apply twap_quantities_length; lia|]. split.
    + intros Hz. destruct total as [s| | |]; try discriminate.
      apply twap_quantities_zero.
    + intros Hneg.
      exists (py_round8 (fdiv total n)),
        (py_round8 (fsub total (fmul (fdiv total n) k))).
      split; [apply twap_quantities_shape; assumption|].
      apply unit_slice_sign; [exact Hneg|].
      apply (py_float_of_int_positive slices); [lia|exact Hn].
Qed.

(** A total of [0.0] in four slices, one second apart. *)
Lemma place_twap_accepts_any_total_witness :
  1 <= 4 /\ 4 < int_overflow_bound /\ cpython_sleep 1 = None
  /\ is_zero (S754_zero false) = true
  /\ exists rs st',
       place_twap accepting_client cpython_sleep "BTCUSDT" "SELL"
         (S754_zero false) 4 1 (fresh 0%nat) = (Returned rs, st')
       /\ length (twap_quantities (S754_zero false) 4) = 4%nat
       /\ Forall (fun q => is_zero q = true)
            (twap_quantities (S754_zero false) 4).
Proof.
  split; [lia|]. split; [reflexivity|]. split; [reflexivity|].
  split; [reflexivity|].
  destruct (proj1 place_twap_accepts_any_total nat accepting_client
              cpython_sleep "BTCUSDT" "SELL" (S754_zero false) 4 1
              (fresh 0%nat))
    as (rs & st' & Hrun & _ & Hlen & Hzero & _).
  - lia.
  - reflexivity.
  - right. reflexivity.
  - exists rs, st'. split; [exact Hrun|]. split; [exact Hlen|].
    apply Hzero. reflexivity.
Defined.

(** C9 as stated fails.  With a total of [0.0], two slices and a negative
    interval, one order of [0.0] is sent and the call ends with the
    exception of [time.sleep]: one order, not two.  With a number of slices
    too large for a float the call raises before any order.  And the
    quantities of a negative total need not be negative: [-1e-9] in two
    slices is sent as [-0.0] twice, and three times the smallest negative
    float in five slices ends with an order of [+0.0]. *)
Lemma place_twap_zero_total_stops_early :
  (submitted_quantities
     (trace (snd (place_twap accepting_client cpython_sleep "BTCUSDT" "BUY"
                    (S754_zero false) 2 (-1) (fresh 0%nat))))
   = [S754_zero false]
   /\ length (submitted_quantities
                (trace (snd (place_twap accepting_client cpython_sleep
                               "BTCUSDT" "BUY" (S754_zero false) 2 (-1)
                               (fresh 0%nat)))))
      <> Z.to_nat 2)
  /\ place_twap accepting_client cpython_sleep "BTCUSDT" "BUY"
       (S754_zero false) int_overflow_bound 0 (fresh 0%nat)
     = (Raised (OverflowError "int too large to convert to float"),
        fresh 0%nat)
  /\ (is_negative (float_of_ratio true 1 (10 ^ 9)) = true
      /\ submitted_quantities
           (trace (snd (place_twap accepting_client cpython_sleep "BTCUSDT"
                          "BUY" (float_of_ratio true 1 (10 ^ 9)) 2 0
                          (fresh 0%nat))))
         = [S754_zero true; S754_zero true]
      /\ is_negative (S754_zero true) = false)
  /\ (is_negative (S754_finite true 3 (-1074)) = true
      /\ submitted_quantities
           (trace (snd (place_twap accepting_client cpython_sleep "BTCUSDT"
                          "BUY" (S754_finite true 3 (-1074)) 5 0
                          (fresh 0%nat))))
         = [S754_zero true; S754_zero true; S754_zero true; S754_zero true;
            S754_zero false]
      /\ sign_bit (S754_zero false) = false).
Proof.
  repeat split; vm_compute; (reflexivity || discriminate).
Qed.

(** C10, as the code has it.  Two calls with the same total and the same
    number of slices submit the same sequence of quantities, whatever the
    symbol, the side, the client, its answers and the interval, as long as
    [time.sleep] accepts both intervals (or there is at most one slice);
    the sequence is the plan [twap_quantities]. *)
Theorem submitted_quantities_deterministic :
  forall (World1 World2 : Type)
         (client1 : World1 -> gmap string pyval -> client_outcome * World1)
         (client2 : World2 -> gmap string pyval -> client_outcome * World2)
         (time_sleep : Z -> option pyexn)
         (symbol1 side1 symbol2 side2 : string)
         (total_quantity : float) (slices interval1 interval2 : Z)
         (w1 : World1) (w2 : World2),
    slices <= 1
    \/ (time_sleep interval1 = None /\ time_sleep interval2 = None) ->
    submitted_quantities
      (trace (snd (place_twap client1 time_sleep symbol1 side1
                     total_quantity slices interval1 (fresh w1))))
    = submitted_quantities
        (trace (snd (place_twap client2 time_sleep symbol2 side2
                       total_quantity slices interval2 (fresh w2))))
    /\ submitted_quantities
         (trace (snd (place_twap client1 time_sleep symbol1 side1
                        total_quantity slices interval1 (fresh w1))))
       = twap_quantities total_quantity slices.
Proof.
  intros World1 World2 client1 client2 ts symbol1 side1 symbol2 side2 total
    slices interval1 interval2 w1 w2 Hsleep.
  rewrite !place_twap_quantities by (destruct Hsleep as [?|[? ?]]; auto).
  split; reflexivity.
Qed.

(** An accepted order and a rejected one, a buy and a sell, intervals of
    zero and of sixty seconds: the same quantities. *)
Lemma submitted_quantities_deterministic_witness :
  (cpython_sleep 0 = None /\ cpython_sleep 60 = None)
  /\ submitted_quantities
       (trace (snd (place_twap accepting_client cpython_sleep "BTCUSDT" "BUY"
                      lit_1_0 3 0 (fresh 0%nat))))
     = submitted_quantities
         (trace (snd (place_twap (rejecting_client 1) cpython_sleep "ETHUSDT"
                        "SELL" lit_1_0 3 60 (fresh 7%nat)))).
Proof.
  split; [split; reflexivity|].
  apply (submitted_quantities_deterministic nat nat accepting_client
           (rejecting_client 1) cpython_sleep "BTCUSDT" "BUY" "ETHUSDT" "SELL"
           lit_1_0 3 0 60 0%nat 7%nat).
  right. split; reflexivity.
Defined.

(** C10 as stated fails: the interval matters when [time.sleep] refuses
    it.  With a total of [1.0] in two slices, an interval of zero submits
    [0.5] twice, an interval of [-1] submits [0.5] once. *)
Lemma submitted_quantities_depend_on_interval :
  submitted_quantities
    (trace (snd (place_twap accepting_client cpython_sleep "BTCUSDT" "BUY"
                   lit_1_0 2 0 (fresh 0%nat))))
  = [float_of_ratio false 1 2; float_of_ratio false 1 2]
  /\ submitted_quantities
       (trace (snd (place_twap accepting_client cpython_sleep "BTCUSDT" "BUY"
                      lit_1_0 2 (-1) (fresh 0%nat))))
     = [float_of_ratio false 1 2]
  /\ submitted_quantities
       (trace (snd (place_twap accepting_client cpython_sleep "BTCUSDT" "BUY"
                      lit_1_0 2 0 (fresh 0%nat))))
     <> submitted_quantities
          (trace (snd (place_twap accepting_client cpython_sleep "BTCUSDT"
                         "BUY" lit_1_0 2 (-1) (fresh 0%nat)))).
Proof.
  split; [|split]; vm_compute; (reflexivity || discriminate).
Qed.

(** ** The remainder of the last slice *)

(** C1 at [place_twap("BTCUSDT", "BUY", 1.0, 3, 0)] and at seven slices.
    The last slice is computed from the unrounded [base], so it does not
    take up what rounding removed from the slices before it.  Three slices
    of [1.0] are [0.33333333] each: their float sum is [0.99999999] and
    their exact sum is below 1.  Seven slices are [0.14285714] each and
    fall short of [1.0] by more than [0.000000015], more than one rounding
    of the last slice can account for. *)
Theorem place_twap_sum_loses_quantity :
  let three :=
    submitted_quantities
      (trace (snd (place_twap accepting_client cpython_sleep "BTCUSDT" "BUY"
                     lit_1_0 3 0 (fresh 0%nat)))) in
  let seven :=
    submitted_quantities
      (trace (snd (place_twap accepting_client cpython_sleep "BTCUSDT" "BUY"
                     lit_1_0 7 0 (fresh 0%nat)))) in
  three = [dec8 33333333; dec8 33333333; dec8 33333333]
  /\ py_sum three = dec8 99999999
  /\ feqb (py_sum three) lit_1_0 = false
  /\ Qcompare (exact_sum three) (exact lit_1_0) = Lt
  /\ seven = repeat (dec8 14285714) 7
  /\ feqb (py_sum seven) lit_1_0 = false
  /\ Qcompare (exact_sum seven + (15 # 1000000000))%Q (exact lit_1_0) = Lt.
Proof.
  cbv zeta. repeat split; vm_compute; reflexivity.
Qed.

(** C5 at [place_twap("BTCUSDT", "BUY", 1.0, 3, 0)] with a client that
    accepts every order: three market orders are dispatched, with waits of
    zero seconds between them, and the third carries [0.33333333] like the
    first two, not [0.33333334]; the three do not sum to [1.0]. *)
Theorem place_twap_example_quantities :
  let run :=
    place_twap accepting_client cpython_sleep "BTCUSDT" "BUY" lit_1_0 3 0
      (fresh 0%nat) in
  fst run = Returned [accepted 0; accepted 1; accepted 2]
  /\ trace (snd run)
     = [Dispatch (market_params "BTCUSDT" "BUY" (dec8 33333333)); Sleep 0;
        Dispatch (market_params "BTCUSDT" "BUY" (dec8 33333333)); Sleep 0;
        Dispatch (market_params "BTCUSDT" "BUY" (dec8 33333333))]
  /\ submitted_quantities (trace (snd run))
     <> [dec8 33333333; dec8 33333333; dec8 33333334]
  /\ feqb (py_sum (submitted_quantities (trace (snd run)))) lit_1_0 = false
  /\ feqb (py_sum [dec8 33333333; dec8 33333333; dec8 33333334]) lit_1_0
     = true.
Proof.
  cbv zeta. repeat split; vm_compute; (reflexivity || discriminate).
Qed.

(** ** More about the slicer: pacing, plan and failures *)

Section TwapShape.

Context {World : Type}.
Variable futures_create_order :
  World -> gmap string pyval -> client_outcome * World.
Variable time_sleep : Z -> option pyexn.

Implicit Types (st : @state World) (symbol side : string) (l : list Z).

(** The events of a run, slice by slice. *)
Lemma run_slices_trace symbol side qty slices interval_s l st :
  trace (snd (run_slices futures_create_order symbol side qty slices
                interval_s l st))
  = trace st
    ++ flat_map (fun i =>
                   Dispatch (market_params symbol side (qty i))
                   :: (if i <? slices - 1 then [Sleep interval_s] else []))
         l.
Proof.
  revert st. induction l as [|i l IH]; intros st.
  - cbn. by rewrite app_nil_r.
  - cbn [run_slices flat_map].
    pose proof (place_market_order_trace futures_create_order symbol side
                  (qty i) st) as Htr.
    destruct (place_market_order _ _ _ _ _) as [res st1]. cbn [snd] in Htr.
    set (st2 := if i <? slices - 1 then emit (Sleep interval_s) st1 else st1).
    specialize (IH st2).
    destruct (run_slices _ _ _ _ _ _ l st2) as [rs st3]. cbn [snd] in *.
    rewrite IH. unfold st2.
    destruct (i <? slices - 1); cbn [emit trace]; rewrite Htr;
      rewrite <- ?app_assoc; reflexivity.
Qed.

(** Over the slices [a .. slices - 1] the events are a wait between any
    two orders and none after the last. *)
Lemma slices_events symbol side qty slices interval_s (k : nat) :
  forall a,
    a + Z.of_nat k = slices ->
    flat_map (fun i =>
                Dispatch (market_params symbol side (qty i))
                :: (if i <? slices - 1 then [Sleep interval_s] else []))
      (seqZ a (Z.of_nat k))
    = twap_events symbol side interval_s (map qty (seqZ a (Z.of_nat k))).
Proof.
  induction k as [|k IH]; intros a Ha; [reflexivity|].
  rewrite seqZ_cons by lia.
  replace (Z.pred (Z.of_nat (S k))) with (Z.of_nat k) by lia.
  cbn [flat_map map twap_events].
  rewrite IH by lia.
  destruct k as [|k].
  - cbn. destruct (Z.ltb_spec a (slices - 1)); [lia|reflexivity].
  - destruct (Z.ltb_spec a (slices - 1)); [|lia].
    rewrite (seqZ_cons (Z.succ a)) by lia. reflexivity.
Qed.

End TwapShape.

(** Between [n] orders there are [n - 1] waits. *)
Lemma twap_events_sleeps (symbol side : string) (interval_s : Z)
    (qs : list float) :
  length (filter (fun ev => is_sleep ev = true)
            (twap_events symbol side interval_s qs))
  = pred (length qs)
  /\ length (filter (fun ev => is_sleep ev = false)
               (twap_events symbol side interval_s qs))
     = length qs.
Proof.
  induction qs as [|q qs [IHs IHd]]; [split; reflexivity|].
  destruct qs as [|q' qs]; [split; reflexivity|].
  change (twap_events symbol side interval_s (q :: q' :: qs))
    with (Dispatch (market_params symbol side q) :: Sleep interval_s
            :: twap_events symbol side interval_s (q' :: qs)).
  rewrite !filter_cons. cbn [is_sleep].
  repeat (destruct (decide _); try done).
  cbn [length] in *. rewrite IHs, IHd. split; reflexivity.
Qed.

(** X1. A call that returns has dispatched the planned quantities as
    market orders for the given symbol and side, with one wait of
    [interval_s] between two consecutive orders and no wait after the last
    one: [slices] orders and [slices - 1] waits, and nothing else. *)
Theorem place_twap_trace_alternates :
  forall (World : Type)
         (futures_create_order :
            World -> gmap string pyval -> client_outcome * World)
         (time_sleep : Z -> option pyexn)
         (symbol side : string) (total_quantity : float)
         (slices interval_s : Z) (st : @state World),
    1 <= slices ->
    slices < int_overflow_bound ->
    slices = 1 \/ time_sleep interval_s = None ->
    exists rs st',
      place_twap futures_create_order time_sleep symbol side total_quantity
        slices interval_s st = (Returned rs, st')
      /\ trace st'
         = trace st
           ++ twap_events symbol side interval_s
                (twap_quantities total_quantity slices)
      /\ length (filter (fun ev => is_sleep ev = false)
                   (twap_events symbol side interval_s
                      (twap_quantities total_quantity slices)))
         = Z.to_nat slices
      /\ length (filter (fun ev => is_sleep ev = true)
                   (twap_events symbol side interval_s
                      (twap_quantities total_quantity slices)))
         = Z.to_nat (slices - 1).
Proof.
  intros World fco ts symbol side total slices interval_s st H1 Hb Hsleep.
  destruct (py_float_of_int_below slices) as [n Hn]; [lia|].
  destruct (py_float_of_int_below (slices - 1)) as [k Hk]; [lia|].
  pose proof (run_slices_trace fco symbol side
                (slice_quantity total slices n k) slices interval_s
                (seqZ 0 slices) st) as Htr.
  rewrite (place_twap_run fco ts symbol side total slices interval_s n k)
    by assumption.
  destruct (run_slices fco symbol side (slice_quantity total slices n k)
              slices interval_s (seqZ 0 slices) st) as [rs st'].
  cbn [snd] in Htr.
  assert (Hplan : twap_quantities total slices
                  = map (slice_quantity total slices n k) (seqZ 0 slices)).
  { unfold twap_quantities. destruct (Z.leb_spec slices 0); [lia|].
    by rewrite Hn, Hk. }
  pose proof (slices_events symbol side (slice_quantity total slices n k)
                slices interval_s (Z.to_nat slices) 0) as Hev.
  rewrite Z2Nat.id in Hev by lia.
  destruct (twap_events_sleeps symbol side interval_s
              (twap_quantities total slices)) as [Hs Hd].
  rewrite twap_quantities_length in Hs, Hd by lia.
  exists rs, st'. split; [reflexivity|]. split.
  - rewrite Htr, Hplan, Hev by lia. reflexivity.
  - split; [exact Hd|]. rewrite Hs. lia.
Qed.

(** Three slices of [1.0], two seconds apart. *)
Lemma place_twap_trace_alternates_witness :
  1 <= 3 /\ 3 < int_overflow_bound /\ cpython_sleep 2 = None
  /\ exists rs st',
       place_twap accepting_client cpython_sleep "BTCUSDT" "BUY" lit_1_0 3 2
         (fresh 0%nat) = (Returned rs, st')
       /\ trace st'
          = [Dispatch (market_params "BTCUSDT" "BUY" (dec8 33333333));
             Sleep 2;
             Dispatch (market_params "BTCUSDT" "BUY" (dec8 33333333));
             Sleep 2;
             Dispatch (market_params "BTCUSDT" "BUY" (dec8 33333333))].
Proof.
  split; [lia|]. split; [reflexivity|]. split; [reflexivity|].
  destruct (place_twap_trace_alternates nat accepting_client cpython_sleep
              "BTCUSDT" "BUY" lit_1_0 3 2 (fresh 0%nat))
    as (rs & st' & Hrun & Htr & _).
  - lia.
  - reflexivity.
  - right. reflexivity.
  - exists rs, st'. split; [exact Hrun|].
    rewrite Htr. vm_compute. reflexivity.
Defined.

(** X2. A wait that [time.sleep] refuses is discovered after the first
    order only.  With two slices or more, the call dispatches the first
    slice, [round(total_quantity / slices, 8)], leaves the client in the
    state this one order produced, and ends with the exception of
    [time.sleep]; the result of the order is lost with it. *)
Theorem place_twap_refused_wait_after_first_order :
  forall (World : Type)
         (futures_create_order :
            World -> gmap string pyval -> client_outcome * World)
         (time_sleep : Z -> option pyexn)
         (symbol side : string) (total_quantity : float)
         (slices interval_s : Z) (st : @state World) (e : pyexn),
    2 <= slices ->
    slices < int_overflow_bound ->
    time_sleep interval_s = Some e ->
    exists n,
      py_float_of_int slices = Some n
      /\ place_twap futures_create_order time_sleep symbol side
           total_quantity slices interval_s st
         = (Raised e,
            State
              (snd (futures_create_order (world st)
                      (market_params symbol side
                         (py_round8 (fdiv total_quantity n)))))
              (trace st
               ++ [Dispatch (market_params symbol side
                               (py_round8 (fdiv total_quantity n)))])).
Proof.
  intros World fco ts symbol side total slices interval_s st e H2 Hb Hs.
  destruct (py_float_of_int_below slices) as [n Hn]; [lia|].
  exists n. split; [exact Hn|].
  unfold place_twap. destruct (Z.leb_spec slices 0); [lia|].
  unfold bind at 1. unfold int_operand. rewrite Hn. unfold ret at 1.
  rewrite seqZ_cons by lia. cbn [for_each]. unfold bind at 1.
  unfold twap_slice, bind, lift, ret, sleep, raise.
  destruct (Z.ltb_spec 0 (slices - 1)); [|lia].
  rewrite Hs. unfold place_market_order, _safe_execute.
  destruct (fco (world st) _) as [[resp|[message str_e|str_e]] w'];
    reflexivity.
Qed.

(** Five slices and the wait that CPython refuses. *)
Lemma place_twap_refused_wait_after_first_order_witness :
  2 <= 5 /\ 5 < int_overflow_bound
  /\ cpython_sleep (-3)
     = Some (ValueError "sleep length must be non-negative")
  /\ place_twap accepting_client cpython_sleep "BTCUSDT" "SELL" lit_1_0 5
       (-3) (fresh 0%nat)
     = (Raised (ValueError "sleep length must be non-negative"),
        State 1%nat
          [Dispatch (market_params "BTCUSDT" "SELL"
                       (float_of_ratio false 1 5))]).
Proof.
  split; [lia|]. split; [reflexivity|]. split; [reflexivity|].
  destruct (place_twap_refused_wait_after_first_order nat accepting_client
              cpython_sleep "BTCUSDT" "SELL" lit_1_0 5 (-3) (fresh 0%nat)
              (ValueError "sleep length must be non-negative"))
    as (n & Hn & Hrun).
  - lia.
  - reflexivity.
  - reflexivity.
  - rewrite Hrun.
    assert (n = S754_finite false 5629499534213120 (-50)) as ->
      by (vm_compute in Hn; congruence).
    vm_compute. reflexivity.
Defined.

(** X3. A number of slices from [2^1024 - 2^970] on cannot be converted for
    the division [float(total_quantity) / slices]: the call raises
    [OverflowError] before the loop; no order is dispatched and nothing
    waits. *)
Theorem place_twap_too_many_slices :
  forall (World : Type)
         (futures_create_order :
            World -> gmap string pyval -> client_outcome * World)
         (time_sleep : Z -> option pyexn)
         (symbol side : string) (total_quantity : float)
         (slices interval_s : Z) (st : @state World),
    int_overflow_bound <= slices ->
    place_twap futures_create_order time_sleep symbol side total_quantity
      slices interval_s st
    = (Raised (OverflowError "int too large to convert to float"), st).
Proof.
  intros World fco ts symbol side total slices interval_s st Hb.
  assert (0 < int_overflow_bound) by reflexivity.
  unfold place_twap. destruct (Z.leb_spec slices 0); [lia|].
  unfold bind, int_operand. rewrite py_float_of_int_above by exact Hb.
  reflexivity.
Qed.

Lemma place_twap_too_many_slices_witness :
  int_overflow_bound <= 2 ^ 1024
  /\ place_twap accepting_client cpython_sleep "BTCUSDT" "BUY" lit_1_0
       (2 ^ 1024) 1 (fresh 0%nat)
     = (Raised (OverflowError "int too large to convert to float"),
        fresh 0%nat).
Proof.
  assert (Hb : int_overflow_bound <= 2 ^ 1024)
    by (vm_compute; discriminate).
  split; [exact Hb|].
  apply (place_twap_too_many_slices nat accepting_client cpython_sleep
           "BTCUSDT" "BUY" lit_1_0 (2 ^ 1024) 1 (fresh 0%nat) Hb).
Defined.

(** X4. On a call that returns, the quantities submitted are [slices - 1]
    copies of the unit [round(total_quantity / slices, 8)] followed by the
    remainder [round(total_quantity - base * (slices - 1), 8)], where
    [base] is the unrounded quotient. *)
Theorem place_twap_equal_slices_then_remainder :
  forall (World : Type)
         (futures_create_order :
            World -> gmap string pyval -> client_outcome * World)
         (time_sleep : Z -> option pyexn)
         (symbol side : string) (total_quantity : float)
         (slices interval_s : Z) (w : World),
    1 <= slices ->
    slices < int_overflow_bound ->
    slices = 1 \/ time_sleep interval_s = None ->
    exists n k,
      py_float_of_int slices = Some n
      /\ py_float_of_int (slices - 1) = Some k
      /\ submitted_quantities
           (trace (snd (place_twap futures_create_order time_sleep symbol
                          side total_quantity slices interval_s (fresh w))))
         = repeat (py_round8 (fdiv total_quantity n)) (Z.to_nat (slices - 1))
           ++ [py_round8
                 (fsub total_quantity (fmul (fdiv total_quantity n) k))].
Proof.
  intros World fco ts symbol side total slices interval_s w H1 Hb Hsleep.
  destruct (py_float_of_int_below slices) as [n Hn]; [lia|].
  destruct (py_float_of_int_below (slices - 1)) as [k Hk]; [lia|].
  exists n, k. split; [exact Hn|]. split; [exact Hk|].
  rewrite place_twap_quantities
    by (destruct Hsleep as [->|Hs]; [left; lia|by right]).
  change (submitted_quantities (trace (fresh w))) with (@nil float).
  rewrite app_nil_l.
  apply twap_quantities_shape; assumption.
Qed.

(** [10.0] in four slices: three times [2.5], then [2.5]. *)
Lemma place_twap_equal_slices_then_remainder_witness :
  1 <= 4 /\ 4 < int_overflow_bound /\ cpython_sleep 0 = None
  /\ submitted_quantities
       (trace (snd (place_twap accepting_client cpython_sleep "BTCUSDT" "BUY"
                      (float_of_ratio false 10 1) 4 0 (fresh 0%nat))))
     = repeat (float_of_ratio false 5 2) 3 ++ [float_of_ratio false 5 2].
Proof.
  split; [lia|]. split; [reflexivity|]. split; [reflexivity|].
  destruct (place_twap_equal_slices_then_remainder nat accepting_client
              cpython_sleep "BTCUSDT" "BUY" (float_of_ratio false 10 1) 4 0
              0%nat)
    as (n & k & Hn & Hk & Hq).
  - lia.
  - reflexivity.
  - right. reflexivity.
  - rewrite Hq.
    assert (n = S754_finite false 4503599627370496 (-50)) as ->
      by (vm_compute in Hn; congruence).
    assert (k = S754_finite false 6755399441055744 (-51)) as ->
      by (vm_compute in Hk; congruence).
    vm_compute. reflexivity.
Defined.

(** X5. A total that is not a number is not refused either.  A NaN total
    is submitted as NaN in every slice.  An infinite total is submitted as
    that infinity in every slice but the last, and as NaN in the last
    one. *)
Theorem place_twap_non_finite_total :
  forall (World : Type)
         (futures_create_order :
            World -> gmap string pyval -> client_outcome * World)
         (time_sleep : Z -> option pyexn)
         (symbol side : string) (slices interval_s : Z) (w : World),
    1 <= slices ->
    slices < int_overflow_bound ->
    slices = 1 \/ time_sleep interval_s = None ->
    submitted_quantities
      (trace (snd (place_twap futures_create_order time_sleep symbol side
                     S754_nan slices interval_s (fresh w))))
    = repeat S754_nan (Z.to_nat slices)
    /\ forall s,
         submitted_quantities
           (trace (snd (place_twap futures_create_order time_sleep symbol
                          side (S754_infinity s) slices interval_s
                          (fresh w))))
         = repeat (S754_infinity s) (Z.to_nat (slices - 1)) ++ [S754_nan].
Proof.
  intros World fco ts symbol side slices interval_s w H1 Hb Hsleep.
  destruct (py_float_of_int_below slices) as [n Hn]; [lia|].
  destruct (py_float_of_int_below (slices - 1)) as [k Hk]; [lia|].
  destruct (py_float_of_int_positive slices n) as (m & e & ->);
    [lia|exact Hn|].
  assert (Hsl : slices <= 1 \/ ts interval_s = None)
    by (destruct Hsleep as [->|Hs]; [left; lia|by right]).
  split; [|intros s]; rewrite place_twap_quantities by exact Hsl;
    change (submitted_quantities (trace (fresh w))) with (@nil float);
    rewrite app_nil_l;
    rewrite (twap_quantities_shape _ slices _ k) by (try done; lia).
  - replace (Z.to_nat slices) with (Z.to_nat (slices - 1) + 1)%nat by lia.
    rewrite repeat_app. reflexivity.
  - f_equal.
    + destruct s; reflexivity.
    + destruct (py_float_of_int_nonneg (slices - 1) k) as [->|(m' & e' & ->)];
        [lia|exact Hk| |]; destruct s; reflexivity.
Qed.

Lemma place_twap_non_finite_total_witness :
  1 <= 3 /\ 3 < int_overflow_bound /\ cpython_sleep 1 = None
  /\ submitted_quantities
       (trace (snd (place_twap accepting_client cpython_sleep "BTCUSDT" "BUY"
                      (S754_infinity false) 3 1 (fresh 0%nat))))
     = [S754_infinity false; S754_infinity false; S754_nan].
Proof.
  split; [lia|]. split; [reflexivity|]. split; [reflexivity|].
  apply (proj2 (place_twap_non_finite_total nat accepting_client
                  cpython_sleep "BTCUSDT" "BUY" 3 1 0%nat
                  ltac:(lia) ltac:(reflexivity)
                  (or_intror (eq_refl : cpython_sleep 1 = None)))
           false).
Defined.

(** ** The command line *)

Ltac cli_unfold :=
  unfold cbind, write, input, order, twap, cret, cstop, sys_exit,
    to_float, to_int in *;
  cbn [bot_state stdin stdout fst snd] in *.

Ltac cli_cases :=
  repeat (cli_unfold;
          match goal with
          | |- context [match ?x with _ => _ end] =>
              lazymatch x with
              | context [match _ with _ => _ end] => fail
              | _ => destruct x eqn:?
              end
          end).

(** X6. When the command line ends with [sys.exit], the status is 1 and no
    order has been sent: in both modes every check that exits comes before
    the first call of the bot. *)
Theorem cli_exit_before_dispatch :
  forall (World : Type)
         (futures_create_order :
            World -> gmap string pyval -> client_outcome * World)
         (time_sleep : Z -> option pyexn)
         (str_strip str_upper : string -> string)
         (float_of_str : string -> float + pyexn)
         (int_of_str : string -> Z + pyexn)
         (args : cli_args) (cs cs' : @cli_state World) (status : Z),
    cli_mode futures_create_order time_sleep str_strip str_upper float_of_str
      int_of_str args cs = (inr (SystemExit status), cs') ->
    status = 1 /\ bot_state cs' = bot_state cs.
Proof.
  intros World fco ts str_strip str_upper float_of_str int_of_str args cs cs'
    status.
  unfold cli_mode, interactive_flow.
  cli_cases; intros H; inversion H; subst; cbn; auto.
Qed.

(** A market order without [--quantity]. *)
Lemma cli_exit_before_dispatch_witness :
  cli_mode accepting_client cpython_sleep ascii_strip ascii_upper
    example_float example_int
    (Cli_args (Some "btcusdt") (Some "BUY") Market None None None 5 1)
    (Cli_state (fresh 0%nat) [] [])
  = (inr (SystemExit 1),
     Cli_state (fresh 0%nat) []
       [Print "--quantity is required for market order"])
  /\ bot_state (Cli_state (fresh 0%nat) []
                  [Print "--quantity is required for market order"])
     = bot_state (Cli_state (fresh 0%nat) [] []).
Proof.
  assert (Hrun :
            cli_mode accepting_client cpython_sleep ascii_strip ascii_upper
              example_float example_int
              (Cli_args (Some "btcusdt") (Some "BUY") Market None None None
                 5 1)
              (Cli_state (fresh 0%nat) [] [])
            = (inr (SystemExit 1),
               Cli_state (fresh 0%nat) []
                 [Print "--quantity is required for market order"]))
    by (vm_compute; reflexivity).
  split; [exact Hrun|].
  exact (proj2 (cli_exit_before_dispatch nat accepting_client cpython_sleep
                  ascii_strip ascii_upper example_float example_int _ _ _ _
                  Hrun)).
Defined.

(** X7. In argument mode a quantity of zero counts as a missing one: for
    each of the four order types, when [--quantity] is absent or is [0.0]
    or [-0.0], the last thing the program prints is the usage message of
    that order type and it exits with status 1 without having called the
    bot. *)
Theorem cli_zero_quantity_is_missing :
  forall (World : Type)
         (futures_create_order :
            World -> gmap string pyval -> client_outcome * World)
         (time_sleep : Z -> option pyexn)
         (str_strip str_upper : string -> string)
         (float_of_str : string -> float + pyexn)
         (int_of_str : string -> Z + pyexn)
         (args : cli_args) (cs : @cli_state World),
    truthy_str (arg_symbol args) = true ->
    is_buy_or_sell (str_upper (str_or (arg_side args) "BUY")) = true ->
    (arg_quantity args = None
     \/ exists q, arg_quantity args = Some q /\ is_zero q = true) ->
    exists cs',
      cli_mode futures_create_order time_sleep str_strip str_upper
        float_of_str int_of_str args cs
      = (inr (SystemExit 1), cs')
      /\ bot_state cs' = bot_state cs
      /\ last (stdout cs')
         = Some (Print
                   match arg_type args with
                   | Market => "--quantity is required for market order"
                   | Limit =>
                       "--quantity and --price are required for limit order"
                   | Stop_limit =>
                       "--quantity, --price and --stop-price are required for stop-limit"
                   | Twap => "--quantity is required for TWAP"
                   end).
Proof.
  intros World fco ts str_strip str_upper float_of_str int_of_str args cs
    Hsym Hside Hq.
  assert (Hnone : truthy_float (arg_quantity args) = None).
  { destruct Hq as [->|(q & -> & Hz)]; [reflexivity|].
    cbn. by rewrite Hz. }
  unfold cli_mode. rewrite Hsym, Hside, Hnone. cbn [negb].
  destruct (arg_type args); cli_unfold; eexists;
    (split; [reflexivity|]); cbn [bot_state stdout];
    (split; [reflexivity|apply last_snoc]).
Qed.

(** A limit order with [--quantity 0]. *)
Lemma cli_zero_quantity_is_missing_witness :
  truthy_str (Some "ethusdt") = true
  /\ is_buy_or_sell (ascii_upper (str_or (Some "SELL") "BUY")) = true
  /\ is_zero (S754_zero false) = true
  /\ exists cs',
       cli_mode accepting_client cpython_sleep ascii_strip ascii_upper
         example_float example_int
         (Cli_args (Some "ethusdt") (Some "SELL") Limit
            (Some (S754_zero false)) (Some lit_1_0) None 5 1)
         (Cli_state (fresh 0%nat) [] [])
       = (inr (SystemExit 1), cs')
       /\ bot_state cs' = fresh 0%nat
       /\ last (stdout cs')
          = Some (Print
                    "--quantity and --price are required for limit order").
Proof.
  split; [reflexivity|]. split; [reflexivity|]. split; [reflexivity|].
  apply (cli_zero_quantity_is_missing nat accepting_client cpython_sleep
           ascii_strip ascii_upper example_float example_int
           (Cli_args (Some "ethusdt") (Some "SELL") Limit
              (Some (S754_zero false)) (Some lit_1_0) None 5 1)
           (Cli_state (fresh 0%nat) [] [])).
  - reflexivity.
  - reflexivity.
  - right. exists (S754_zero false). split; reflexivity.
Defined.

(** X8. In argument mode a market order with any quantity other than zero
    (a negative one, NaN) is sent as it is: one call of
    [place_market_order] with the symbol in upper case and the side, which
    is BUY when [--side] is absent; the program then prints the result and
    returns. *)
Theorem cli_market_order_dispatch :
  forall (World : Type)
         (futures_create_order :
            World -> gmap string pyval -> client_outcome * World)
         (time_sleep : Z -> option pyexn)
         (str_strip str_upper : string -> string)
         (float_of_str : string -> float + pyexn)
         (int_of_str : string -> Z + pyexn)
         (args : cli_args) (cs : @cli_state World)
         (symbol : string) (quantity : float),
    arg_symbol args = Some symbol ->
    symbol <> "" ->
    is_buy_or_sell (str_upper (str_or (arg_side args) "BUY")) = true ->
    arg_type args = Market ->
    arg_quantity args = Some quantity ->
    is_zero quantity = false ->
    exists res cs',
      cli_mode futures_create_order time_sleep str_strip str_upper
        float_of_str int_of_str args cs = (inl tt, cs')
      /\ place_market_order futures_create_order (str_upper symbol)
           (str_upper (str_or (arg_side args) "BUY")) quantity (bot_state cs)
         = (res, bot_state cs')
      /\ last (stdout cs') = Some (Print_value res).
Proof.
  intros World fco ts str_strip str_upper float_of_str int_of_str args cs
    symbol quantity Hsym Hne Hside Htype Hq Hz.
  unfold cli_mode. rewrite Hsym, Hside, Htype, Hq.
  assert (Htruthy : truthy_str (Some symbol) = true).
  { cbn. destruct (String.eqb_spec symbol ""); [contradiction|reflexivity]. }
  rewrite Htruthy. cbn [negb default truthy_float]. rewrite Hz.
  cli_unfold. destruct (place_market_order _ _ _ _ _) as [res st'].
  eexists res, _. split; [reflexivity|]. cbn [bot_state stdout].
  split; [reflexivity|apply last_snoc].
Qed.

(** [--symbol btcusdt --quantity -1] with no side: a buy of [-1.0]. *)
Lemma cli_market_order_dispatch_witness :
  "btcusdt" <> ""
  /\ is_buy_or_sell (ascii_upper (str_or None "BUY")) = true
  /\ is_zero lit_minus_1_0 = false
  /\ exists res cs',
       cli_mode accepting_client cpython_sleep ascii_strip ascii_upper
         example_float example_int
         (Cli_args (Some "btcusdt") None Market (Some lit_minus_1_0) None
            None 5 1)
         (Cli_state (fresh 0%nat) [] []) = (inl tt, cs')
       /\ place_market_order accepting_client (ascii_upper "btcusdt")
            (ascii_upper (str_or None "BUY")) lit_minus_1_0 (fresh 0%nat)
          = (res, bot_state cs')
       /\ last (stdout cs') = Some (Print_value res).
Proof.
  split; [discriminate|]. split; [reflexivity|]. split; [reflexivity|].
  apply (cli_market_order_dispatch nat accepting_client cpython_sleep
           ascii_strip ascii_upper example_float example_int
           (Cli_args (Some "btcusdt") None Market (Some lit_minus_1_0) None
              None 5 1)
           (Cli_state (fresh 0%nat) [] [])
           "btcusdt" lit_minus_1_0);
    first [reflexivity | discriminate].
Defined.

(** X9. The interactive mode checks nothing about the quantity.  With a
    valid side, the choice ["1"] and a fourth line that [float] accepts,
    whatever number that is (zero, a negative number, NaN), the flow reads
    exactly these four lines and sends one market order with that quantity,
    for the symbol and the side stripped and in upper case. *)
Theorem interactive_market_order :
  forall (World : Type)
         (futures_create_order :
            World -> gmap string pyval -> client_outcome * World)
         (time_sleep : Z -> option pyexn)
         (str_strip str_upper : string -> string)
         (float_of_str : string -> float + pyexn)
         (int_of_str : string -> Z + pyexn)
         (cs : @cli_state World)
         (l_symbol l_side l_choice l_quantity : string) (rest : list string)
         (quantity : float),
    stdin cs = l_symbol :: l_side :: l_choice :: l_quantity :: rest ->
    is_buy_or_sell (str_upper (str_strip l_side)) = true ->
    str_strip l_choice = "1" ->
    float_of_str l_quantity = inl quantity ->
    interactive_flow futures_create_order time_sleep str_strip str_upper
      float_of_str int_of_str cs
    = (let '(res, st') :=
         place_market_order futures_create_order
           (str_upper (str_strip l_symbol)) (str_upper (str_strip l_side))
           quantity (bot_state cs) in
       (inl tt,
        Cli_state st' rest
          (stdout cs
           ++ [Print banner; Prompt "Symbol (e.g., BTCUSDT): ";
               Prompt "Side (BUY/SELL): "; Print menu;
               Prompt "Select (1/2/3/4): "; Prompt "Quantity: ";
               Print_value res]))).
Proof.
  intros World fco ts str_strip str_upper float_of_str int_of_str
    [st i o] l_symbol l_side l_choice l_quantity rest quantity
    Hin Hside Hchoice Hq.
  cbn in Hin. subst i.
  unfold interactive_flow. cli_unfold.
  rewrite Hside. cbn [negb]. cli_unfold.
  rewrite Hchoice, Hq. cbn [String.eqb Ascii.eqb Bool.eqb].
  cli_unfold.
  destruct (place_market_order _ _ _ _ _) as [res st'].
  cli_unfold. rewrite <- !app_assoc. reflexivity.
Qed.

(** A market order of [0], which the argument mode would refuse. *)
Lemma interactive_market_order_witness :
  is_buy_or_sell (ascii_upper (ascii_strip " buy ")) = true
  /\ ascii_strip "1 " = "1"
  /\ example_float "0" = inl (S754_zero false)
  /\ bot_state
       (snd (interactive_flow accepting_client cpython_sleep ascii_strip
               ascii_upper example_float example_int
               (Cli_state (fresh 0%nat) ["btcusdt"; " buy "; "1 "; "0"] [])))
     = State 1%nat
         [Dispatch (market_params "BTCUSDT" "BUY" (S754_zero false))].
Proof.
  split; [reflexivity|]. split; [reflexivity|]. split; [reflexivity|].
  rewrite (interactive_market_order nat accepting_client cpython_sleep
             ascii_strip ascii_upper example_float example_int
             (Cli_state (fresh 0%nat) ["btcusdt"; " buy "; "1 "; "0"] [])
             "btcusdt" " buy " "1 " "0" [] (S754_zero false));
    reflexivity.
Defined.

(** X10. A choice that is none of 1, 2, 3, 4 is reported only after the
    quantity has been read and converted.  When the fourth line is a
    number, the flow prints ["Invalid choice"] and returns normally,
    without an exit status and without an order; when it is not, the
    [ValueError] of [float] leaves the flow and the choice is never
    reported. *)
Theorem interactive_invalid_choice :
  forall (World : Type)
         (futures_create_order :
            World -> gmap string pyval -> client_outcome * World)
         (time_sleep : Z -> option pyexn)
         (str_strip str_upper : string -> string)
         (float_of_str : string -> float + pyexn)
         (int_of_str : string -> Z + pyexn)
         (cs : @cli_state World)
         (l_symbol l_side l_choice l_quantity : string) (rest : list string),
    stdin cs = l_symbol :: l_side :: l_choice :: l_quantity :: rest ->
    is_buy_or_sell (str_upper (str_strip l_side)) = true ->
    str_strip l_choice <> "1" -> str_strip l_choice <> "2" ->
    str_strip l_choice <> "3" -> str_strip l_choice <> "4" ->
    let asked :=
      stdout cs
      ++ [Print banner; Prompt "Symbol (e.g., BTCUSDT): ";
          Prompt "Side (BUY/SELL): "; Print menu;
          Prompt "Select (1/2/3/4): "; Prompt "Quantity: "] in
    interactive_flow futures_create_order time_sleep str_strip str_upper
      float_of_str int_of_str cs
    = match float_of_str l_quantity with
      | inl _ =>
          (inl tt,
           Cli_state (bot_state cs) rest (asked ++ [Print "Invalid choice"]))
      | inr e => (inr (Uncaught e), Cli_state (bot_state cs) rest asked)
      end.
Proof.
  intros World fco ts str_strip str_upper float_of_str int_of_str
    [st i o] l_symbol l_side l_choice l_quantity rest
    Hin Hside H1 H2 H3 H4 asked.
  cbn in Hin. subst i. unfold asked.
  unfold interactive_flow. cli_unfold.
  rewrite Hside. cbn [negb]. cli_unfold.
  destruct (float_of_str l_quantity) as [q|e].
  - destruct (String.eqb_spec (str_strip l_choice) "1"); [contradiction|].
    destruct (String.eqb_spec (str_strip l_choice) "2"); [contradiction|].
    destruct (String.eqb_spec (str_strip l_choice) "3"); [contradiction|].
    destruct (String.eqb_spec (str_strip l_choice) "4"); [contradiction|].
    cli_unfold. rewrite <- !app_assoc. reflexivity.
  - cli_unfold. rewrite <- !app_assoc. reflexivity.
Qed.

Lemma interactive_invalid_choice_witness :
  is_buy_or_sell (ascii_upper (ascii_strip "SELL")) = true
  /\ ascii_strip "9" <> "1" /\ ascii_strip "9" <> "2"
  /\ ascii_strip "9" <> "3" /\ ascii_strip "9" <> "4"
  /\ fst (interactive_flow accepting_client cpython_sleep ascii_strip
            ascii_upper example_float example_int
            (Cli_state (fresh 0%nat) ["BTCUSDT"; "SELL"; "9"; "much"] []))
     = inr (Uncaught (ValueError "could not convert string to float")).
Proof.
  split; [reflexivity|]. repeat (split; [discriminate|]).
  rewrite (interactive_invalid_choice nat accepting_client cpython_sleep
             ascii_strip ascii_upper example_float example_int
             (Cli_state (fresh 0%nat) ["BTCUSDT"; "SELL"; "9"; "much"] [])
             "BTCUSDT" "SELL" "9" "much" []);
    first [reflexivity | discriminate].
Defined.

(** X11. A side that is neither BUY nor SELL after stripping and upper
    casing ends the interactive flow with status 1 as soon as it has been
    read: two lines are consumed, the lines after them stay unread, and the
    bot has not been called. *)
Theorem interactive_invalid_side :
  forall (World : Type)
         (futures_create_order :
            World -> gmap string pyval -> client_outcome * World)
         (time_sleep : Z -> option pyexn)
         (str_strip str_upper : string -> string)
         (float_of_str : string -> float + pyexn)
         (int_of_str : string -> Z + pyexn)
         (cs : @cli_state World)
         (l_symbol l_side : string) (rest : list string),
    stdin cs = l_symbol :: l_side :: rest ->
    is_buy_or_sell (str_upper (str_strip l_side)) = false ->
    interactive_flow futures_create_order time_sleep str_strip str_upper
      float_of_str int_of_str cs
    = (inr (SystemExit 1),
       Cli_state (bot_state cs) rest
         (stdout cs
          ++ [Print banner; Prompt "Symbol (e.g., BTCUSDT): ";
              Prompt "Side (BUY/SELL): ";
              Print "Invalid side; must be BUY or SELL"])).
Proof.
  intros World fco ts str_strip str_upper float_of_str int_of_str
    [st i o] l_symbol l_side rest Hin Hside.
  cbn in Hin. subst i.
  unfold interactive_flow. cli_unfold.
  rewrite Hside. cbn [negb]. cli_unfold.
  rewrite <- !app_assoc. reflexivity.
Qed.

Lemma interactive_invalid_side_witness :
  is_buy_or_sell (ascii_upper (ascii_strip "hold")) = false
  /\ interactive_flow accepting_client cpython_sleep ascii_strip ascii_upper
       example_float example_int
       (Cli_state (fresh 0%nat) ["BTCUSDT"; "hold"; "1"; "1"] [])
     = (inr (SystemExit 1),
        Cli_state (fresh 0%nat) ["1"; "1"]
          ([] ++ [Print banner; Prompt "Symbol (e.g., BTCUSDT): ";
                  Prompt "Side (BUY/SELL): ";
                  Print "Invalid side; must be BUY or SELL"])).
Proof.
  split; [reflexivity|].
  apply (interactive_invalid_side nat accepting_client cpython_sleep
           ascii_strip ascii_upper example_float example_int
           (Cli_state (fresh 0%nat) ["BTCUSDT"; "hold"; "1"; "1"] [])
           "BTCUSDT" "hold" ["1"; "1"]);
    reflexivity.
Defined.

(** X12. In argument mode the number of slices of a TWAP is checked by the
    bot only, after the line "Starting TWAP" has been printed: with
    [--slices] zero or negative the program prints that line and ends with
    the uncaught [ValueError] of [place_twap]; no order is sent. *)
Theorem cli_twap_invalid_slices :
  forall (World : Type)
         (futures_create_order :
            World -> gmap string pyval -> client_outcome * World)
         (time_sleep : Z -> option pyexn)
         (str_strip str_upper : string -> string)
         (float_of_str : string -> float + pyexn)
         (int_of_str : string -> Z + pyexn)
         (args : cli_args) (cs : @cli_state World)
         (symbol : string) (quantity : float),
    arg_symbol args = Some symbol ->
    symbol <> "" ->
    is_buy_or_sell (str_upper (str_or (arg_side args) "BUY")) = true ->
    arg_type args = Twap ->
    arg_quantity args = Some quantity ->
    is_zero quantity = false ->
    arg_slices args <= 0 ->
    cli_mode futures_create_order time_sleep str_strip str_upper float_of_str
      int_of_str args cs
    = (inr (Uncaught (ValueError "slices must be >= 1")),
       Cli_state (bot_state cs) (stdin cs)
         (stdout cs
          ++ [Print (twap_banner (arg_slices args) (arg_interval args))])).
Proof.
  intros World fco ts str_strip str_upper float_of_str int_of_str args cs
    symbol quantity Hsym Hne Hside Htype Hq Hz Hslices.
  unfold cli_mode. rewrite Hsym, Hside, Htype, Hq.
  assert (Htruthy : truthy_str (Some symbol) = true).
  { cbn. destruct (String.eqb_spec symbol ""); [contradiction|reflexivity]. }
  rewrite Htruthy. cbn [negb default truthy_float]. rewrite Hz.
  cli_unfold. unfold place_twap.
  destruct (Z.leb_spec (arg_slices args) 0); [|lia].
  unfold raise. reflexivity.
Qed.

(** [--type twap --quantity 1 --slices 0]. *)
Lemma cli_twap_invalid_slices_witness :
  "BTCUSDT" <> ""
  /\ is_buy_or_sell (ascii_upper (str_or (Some "SELL") "BUY")) = true
  /\ is_zero lit_1_0 = false /\ 0 <= 0
  /\ cli_mode accepting_client cpython_sleep ascii_strip ascii_upper
       example_float example_int
       (Cli_args (Some "BTCUSDT") (Some "SELL") Twap (Some lit_1_0) None None
          0 1)
       (Cli_state (fresh 0%nat) [] [])
     = (inr (Uncaught (ValueError "slices must be >= 1")),
        Cli_state (fresh 0%nat) []
          ([] ++ [Print "Starting TWAP: slices=0 interval=1s"])).
Proof.
  split; [discriminate|]. split; [reflexivity|]. split; [reflexivity|].
  split; [lia|].
  apply (cli_twap_invalid_slices nat accepting_client cpython_sleep
           ascii_strip ascii_upper example_float example_int
           (Cli_args (Some "BTCUSDT") (Some "SELL") Twap (Some lit_1_0) None
              None 0 1)
           (Cli_state (fresh 0%nat) [] []) "BTCUSDT" lit_1_0);
    first [reflexivity | discriminate | cbn; lia].
Defined.

(** X13. In argument mode a TWAP with a valid number of slices that
    converts to a float and a wait that [time.sleep] accepts prints the
    line "Starting TWAP", sends the [slices] planned orders and ends by
    printing the list of their [slices] results. *)
Theorem cli_twap_completes :
  forall (World : Type)
         (futures_create_order :
            World -> gmap string pyval -> client_outcome * World)
         (time_sleep : Z -> option pyexn)
         (str_strip str_upper : string -> string)
         (float_of_str : string -> float + pyexn)
         (int_of_str : string -> Z + pyexn)
         (args : cli_args) (cs : @cli_state World)
         (symbol : string) (quantity : float),
    arg_symbol args = Some symbol ->
    symbol <> "" ->
    is_buy_or_sell (str_upper (str_or (arg_side args) "BUY")) = true ->
    arg_type args = Twap ->
    arg_quantity args = Some quantity ->
    is_zero quantity = false ->
    1 <= arg_slices args ->
    arg_slices args < int_overflow_bound ->
    arg_slices args = 1 \/ time_sleep (arg_interval args) = None ->
    exists rs cs' before,
      cli_mode futures_create_order time_sleep str_strip str_upper
        float_of_str int_of_str args cs = (inl tt, cs')
      /\ place_twap futures_create_order time_sleep (str_upper symbol)
           (str_upper (str_or (arg_side args) "BUY")) quantity
           (arg_slices args) (arg_interval args) (bot_state cs)
         = (Returned rs, bot_state cs')
      /\ stdout cs'
         = before
           ++ [Print (twap_banner (arg_slices args) (arg_interval args));
               Print_values rs]
      /\ length rs = Z.to_nat (arg_slices args)
      /\ submitted_quantities (trace (bot_state cs'))
         = submitted_quantities (trace (bot_state cs))
           ++ twap_quantities quantity (arg_slices args).
Proof.
  intros World fco ts str_strip str_upper float_of_str int_of_str args cs
    symbol quantity Hsym Hne Hside Htype Hq Hz H1 Hb Hsleep.
  destruct (py_float_of_int_below (arg_slices args)) as [n Hn]; [lia|].
  destruct (py_float_of_int_below (arg_slices args - 1)) as [k Hk]; [lia|].
  unfold cli_mode. rewrite Hsym, Hside, Htype, Hq.
  assert (Htruthy : truthy_str (Some symbol) = true).
  { cbn. destruct (String.eqb_spec symbol ""); [contradiction|reflexivity]. }
  rewrite Htruthy. cbn [negb default truthy_float]. rewrite Hz.
  cli_unfold.
  pose proof (place_twap_quantities fco ts (str_upper symbol)
                (str_upper (str_or (arg_side args) "BUY")) quantity
                (arg_slices args) (arg_interval args) (bot_state cs)) as Hsub.
  pose proof (place_twap_run fco ts (str_upper symbol)
                (str_upper (str_or (arg_side args) "BUY")) quantity
                (arg_slices args) (arg_interval args) n k (bot_state cs)
                H1 Hn Hk Hsleep) as Hrun.
  pose proof (run_slices_length fco (str_upper symbol)
                (str_upper (str_or (arg_side args) "BUY"))
                (slice_quantity quantity (arg_slices args) n k)
                (arg_slices args) (arg_interval args)
                (seqZ 0 (arg_slices args)) (bot_state cs)) as Hlen.
  destruct (run_slices _ _ _ _ _ _ _ _) as [rs st'].
  cbn [fst] in Hlen. rewrite length_seqZ in Hlen.
  rewrite Hrun in Hsub. cbn [snd] in Hsub.
  eexists rs, _, (stdout cs). unfold id.
  split; [rewrite Hrun; cli_unfold; reflexivity|].
  cbn [bot_state stdout]. split; [exact Hrun|]. split.
  - rewrite <- !app_assoc. reflexivity.
  - split; [exact Hlen|].
    apply Hsub. destruct Hsleep as [->|Hs]; [left; lia|by right].
Qed.

(** [--type twap --quantity 1 --slices 3 --interval 1]. *)
Lemma cli_twap_completes_witness :
  "btcusdt" <> ""
  /\ is_buy_or_sell (ascii_upper (str_or (Some "BUY") "BUY")) = true
  /\ is_zero lit_1_0 = false /\ 1 <= 3 /\ 3 < int_overflow_bound
  /\ cpython_sleep 1 = None
  /\ exists rs cs' before,
       cli_mode accepting_client cpython_sleep ascii_strip ascii_upper
         example_float example_int
         (Cli_args (Some "btcusdt") (Some "BUY") Twap (Some lit_1_0) None
            None 3 1)
         (Cli_state (fresh 0%nat) [] []) = (inl tt, cs')
       /\ stdout cs'
          = before
            ++ [Print "Starting TWAP: slices=3 interval=1s"; Print_values rs]
       /\ length rs = 3%nat.
Proof.
  split; [discriminate|]. split; [reflexivity|]. split; [reflexivity|].
  split; [lia|]. split; [reflexivity|]. split; [reflexivity|].
  destruct (cli_twap_completes nat accepting_client cpython_sleep
              ascii_strip ascii_upper example_float example_int
              (Cli_args (Some "btcusdt") (Some "BUY") Twap (Some lit_1_0)
                 None None 3 1)
              (Cli_state (fresh 0%nat) [] []) "btcusdt" lit_1_0)
    as (rs & cs' & before & Hrun & _ & Hout & Hlen & _);
    try reflexivity; try discriminate; try (cbn; lia).
  - right. reflexivity.
  - exists rs, cs', before. split; [exact Hrun|].
    split; [exact Hout|exact Hlen].
Defined.

(** X14. The interactive flow sends nothing before it has read four lines
    (symbol, side, choice, quantity): with fewer than four lines on the
    input, it ends without having called the bot. *)
Theorem interactive_needs_four_lines :
  forall (World : Type)
         (futures_create_order :
            World -> gmap string pyval -> client_outcome * World)
         (time_sleep : Z -> option pyexn)
         (str_strip str_upper : string -> string)
         (float_of_str : string -> float + pyexn)
         (int_of_str : string -> Z + pyexn)
         (cs : @cli_state World),
    (length (stdin cs) < 4)%nat ->
    fst (interactive_flow futures_create_order time_sleep str_strip
           str_upper float_of_str int_of_str cs) <> inl tt
    /\ bot_state (snd (interactive_flow futures_create_order time_sleep
                         str_strip str_upper float_of_str int_of_str cs))
       = bot_state cs.
Proof.
  intros World fco ts str_strip str_upper float_of_str int_of_str [st i o].
  cbn [stdin]. unfold interactive_flow.
  destruct i as [|l1 [|l2 [|l3 [|l4 rest]]]]; cbn [length]; intros Hlen;
    try lia; cli_unfold;
    repeat match goal with
           | |- context [if ?b then _ else _] => destruct b; cli_unfold
           end;
    split; (discriminate || reflexivity).
Qed.

Lemma interactive_needs_four_lines_witness :
  (length ["BTCUSDT"; "BUY"; "1"] < 4)%nat
  /\ bot_state
       (snd (interactive_flow accepting_client cpython_sleep ascii_strip
               ascii_upper example_float example_int
               (Cli_state (fresh 0%nat) ["BTCUSDT"; "BUY"; "1"] [])))
     = fresh 0%nat.
Proof.
  split; [cbn; lia|].
  apply (interactive_needs_four_lines nat accepting_client cpython_sleep
           ascii_strip ascii_upper example_float example_int
           (Cli_state (fresh 0%nat) ["BTCUSDT"; "BUY"; "1"] [])).
  cbn. lia.
Defined.
